(** * The AQT HTTP client of ProjectQ: model and properties

    Shallow embedding of [projectq/backends/_aqt/_aqt_http_client.py].

    The Python code is a [requests.Session] subclass whose methods mutate the
    session ([backends], [token], [headers]), install a SIGINT handler, talk
    to a REST endpoint, sleep and print.  It is modelled by a state-and-exception
    monad over a [World] that holds the session attributes, the process-wide
    SIGINT handler and a log of the calls that leave the process.  What the
    outside answers (the server, the keyboard, the arrival of signals while
    a request or a sleep blocks) is read from an [Env]; a SIGINT that is
    still pending when [get_result] changes the handler is read from a
    [Pending]. *)

From Stdlib Require Import ZArith List String Bool Lia.
From stdpp Require Import base gmap strings list.
Import ListNotations.

#[local] Open Scope string_scope.

(** ** Data *)

(** One entry of [self.backends]: [{'nq': .., 'version': .., 'url': ..}]. *)
Record Device := mkDevice { nq : Z; version : string; url : string }.

(** The [info] dictionary handed over by the backend; the client reads the
    keys ['circuit'], ['shots'] and ['nq']. *)
Record Info := mkInfo { circuit : string; shots : Z; info_nq : Z }.

(** [urljoin(base, rel)] is kept symbolic. *)
Inductive Url := urljoin (base rel : string).

Definition _API_URL : string := "https://gateway.aqt.eu/marmot/".

(** The two [data=] dictionaries sent with [put]. *)
Inductive Payload :=
| SubmitArgs (data : string) (access_token : option string) (repetitions no_qubits : Z)
| PollArgs (id : string) (access_token : option string).

(** The JSON object of a response, [{status, id?, samples?}]; a key may be
    missing.  A key that is present holds a value of the type that the API
    gives it, a string or a list of integers: a [null] or a value of another
    type under a key is not represented, so nothing here speaks about a
    response with ["samples": null], which [get_result] would return as
    [None]. *)
Record Json := mkJson {
  j_status : option string;
  j_id : option string;
  j_samples : option (list Z)
}.

(** What a [put] comes back with: no response at all (connection refused,
    timeout, ...) or a response with its HTTP status code and the JSON object
    that [req.json()] reads from its body. *)
Inductive Reply :=
| Unreachable
| Response (status_code : Z) (body : Json).

(** ** Exceptions *)

(** [HTTPError] and [ConnectionError] are the [requests.exceptions] classes,
    both subclasses of [RequestException]; [KeyError], [ValueError],
    [KeyboardInterrupt] and [Exception] are builtins.

    Modelled from the spec: the module [projectq/backends/_exceptions.py]
    that declares [DeviceOfflineError], [DeviceTooSmall] and
    [RequestTimeoutError] is not among the sources; the specification lists
    them as error kinds of their own, distinct from the transport and the
    parse errors, so they are constructors of their own here. *)
Inductive exn :=
| HTTPError (status_code : Z)
| ConnectionError
| KeyError (key : string)
| ValueError (msg : string)
| Exception (msg : string)
| KeyboardInterrupt
| DeviceOfflineError (msg : string)
| DeviceTooSmall (msg : string)
| RequestTimeoutError (msg : string).

(** The classes named in the [except] clauses of [send]. *)
Inductive exn_class :=
| cls_HTTPError
| cls_RequestException
| cls_KeyError.

Definition isinstance (e : exn) (c : exn_class) : bool :=
  match c, e with
  | cls_HTTPError, HTTPError _ => true
  | cls_RequestException, (HTTPError _ | ConnectionError) => true
  | cls_KeyError, KeyError _ => true
  | _, _ => false
  end.

(** ** Signals *)

(** What [signal.getsignal] can return besides [None]: the two special values
    or a Python callable.  A callable is described by what it does when the
    signal arrives: raise an exception or return. *)
Inductive Handler :=
| SIG_DFL
| SIG_IGN
| PyHandler (name : string) (raises : option exn).

(** ** Output and log *)

(** The pieces of a printed argument: the literal parts of an f-string and
    the values formatted into it. *)
Inductive Piece :=
| Lit (s : string)
| Int (z : Z)
| FmtInfo (i : Info)
| FmtBackends (b : gmap string Device)
| FmtExn (e : exn).

Inductive Event :=
| EvPut (target : Url) (data : Payload)
| EvSleep (seconds : Z)
| EvPrint (args : list (list Piece))
| EvGetpass (prompt : string)
| EvRefresh.

Definition is_put (e : Event) : bool :=
  match e with EvPut _ _ => true | _ => false end.
Definition is_sleep (e : Event) : bool :=
  match e with EvSleep _ => true | _ => false end.
Definition is_refresh (e : Event) : bool :=
  match e with EvRefresh => true | _ => false end.

Definition count (p : Event -> bool) (l : list Event) : nat :=
  length (List.filter p l).

(** ** World and environment *)

Record World := mkWorld {
  backends : gmap string Device;   (* self.backends *)
  token : option string;           (* self.token *)
  headers : gmap string string;    (* the entries of self.headers set here *)
  sigint : option Handler;         (* signal.getsignal(signal.SIGINT) *)
  log : list Event                 (* oldest first *)
}.

Definition puts (w : World) : nat := count is_put (log w).
Definition sleeps (w : World) : nat := count is_sleep (log w).
Definition refreshes (w : World) : nat := count is_refresh (log w).

Record Env := mkEnv {
  server : nat -> Reply;          (* the answer to the k-th put, k = 0, 1, ... *)
  sigint_in_put : nat -> bool;    (* SIGINT arrives while the k-th put blocks *)
  sigint_in_sleep : nat -> bool;  (* SIGINT arrives during the k-th sleep *)
  typed_token : string            (* what is typed at the getpass prompt *)
}.

(** ** The monad *)

Inductive outcome (A : Type) :=
| Ret (a : A)
| Raise (e : exn).
Arguments Ret {A} a.
Arguments Raise {A} e.

Definition M (A : Type) : Type := World -> World * outcome A.

Definition ret {A} (a : A) : M A := fun w => (w, Ret a).
Definition raise {A} (e : exn) : M A := fun w => (w, Raise e).
Definition bind {A B} (c : M A) (k : A -> M B) : M B :=
  fun w => match c w with
           | (w', Ret a) => k a w'
           | (w', Raise e) => (w', Raise e)
           end.

Declare Scope py_scope.
Delimit Scope py_scope with py.
Notation "x <- c ;; k" := (bind c (fun x => k))
  (at level 100, c at next level, right associativity) : py_scope.
Notation "c ;; k" := (bind c (fun _ => k))
  (at level 100, right associativity) : py_scope.
#[local] Open Scope py_scope.

(** [try: body finally: fin].  The [finally] block runs on every way out of
    [body]; an exception of its own replaces the outcome of [body]. *)
Definition try_finally {A} (body : M A) (fin : M unit) : M A :=
  fun w => match body w with
           | (w1, r) => match fin w1 with
                        | (w2, Ret _) => (w2, r)
                        | (w2, Raise e) => (w2, Raise e)
                        end
           end.

(** [try: body except C1 as err: h1 err except C2 as err: h2 err ...]: the
    first clause whose class the exception is an instance of handles it. *)
Fixpoint dispatch {A} (clauses : list (exn_class * (exn -> M A))) (e : exn) : M A :=
  match clauses with
  | [] => raise e
  | (c, h) :: rest => if isinstance e c then h e else dispatch rest e
  end.

Definition try_except {A} (body : M A) (clauses : list (exn_class * (exn -> M A))) : M A :=
  fun w => match body w with
           | (w1, Ret a) => (w1, Ret a)
           | (w1, Raise e) => dispatch clauses e w1
           end.

(** [for x in xs: body x], where [body] answers [Some v] for [return v] and
    [None] for falling through to the next round.  The result is [None] when
    the loop runs to its end. *)
Fixpoint for_each {A} (xs : list nat) (body : nat -> M (option A)) : M (option A) :=
  match xs with
  | [] => ret None
  | x :: rest =>
      r <- body x ;;
      match r with
      | Some v => ret (Some v)
      | None => for_each rest body
      end
  end.

(** [range(n)] for a Python int [n]: empty when [n <= 0]. *)
Definition range (n : Z) : list nat := seq 0 (Z.to_nat n).

(** ** Primitive operations *)

Definition emit (e : Event) : M unit :=
  fun w => (mkWorld (backends w) (token w) (headers w) (sigint w) (log w ++ [e]), Ret tt).

Definition print (args : list (list Piece)) : M unit := emit (EvPrint args).

Definition when (b : bool) (c : M unit) : M unit := if b then c else ret tt.

Definition set_backends (b : gmap string Device) : M unit :=
  fun w => (mkWorld b (token w) (headers w) (sigint w) (log w), Ret tt).

(** [self.backends[key] = value] *)
Definition backends_setitem (key : string) (value : Device) : M unit :=
  fun w => set_backends (<[key := value]> (backends w)) w.

(** [self.backends[key]] *)
Definition backends_getitem (key : string) : M Device :=
  fun w => match backends w !! key with
           | Some d => (w, Ret d)
           | None => (w, Raise (KeyError key))
           end.

Definition get_token : M (option string) := fun w => (w, Ret (token w)).

Definition set_token (t : option string) : M unit :=
  fun w => (mkWorld (backends w) t (headers w) (sigint w) (log w), Ret tt).

(** [self.headers.update({k1: v1, k2: v2})] *)
Definition headers_update (kvs : list (string * string)) : M unit :=
  fun w => (mkWorld (backends w) (token w)
              (fold_left (fun h kv => <[kv.1 := kv.2]> h) kvs (headers w))
              (sigint w) (log w), Ret tt).

(** [signal.getsignal(signal.SIGINT)] and [signal.signal(signal.SIGINT, h)] *)
Definition getsignal : M (option Handler) := fun w => (w, Ret (sigint w)).

Definition signal_signal (h : Handler) : M unit :=
  fun w => (mkWorld (backends w) (token w) (headers w) (Some h) (log w), Ret tt).

(** The arrival of SIGINT while the interpreter is blocked: the installed
    handler runs.  A Python handler that raises makes the blocked call raise;
    when the handler returns, or the signal is ignored, the call resumes.
    ([SIG_DFL] and a handler unknown to Python end the process; neither is
    installed while a blocking call of this module runs.) *)
Definition deliver_sigint : M unit :=
  fun w => match sigint w with
           | Some (PyHandler _ (Some e)) => (w, Raise e)
           | _ => (w, Ret tt)
           end.

(** [signal.signal(signal.SIGINT, h)] at a moment when a SIGINT may be
    pending, that is, received by the process but not yet handled by the
    interpreter.  [signal.signal] handles a pending signal before it changes
    anything: the handler that is installed at that moment runs, and [h] is
    installed only when that handler returns.  (Only a handler installed
    from Python leaves a signal pending; with another one in place
    [deliver_sigint] does nothing.)  [signal_signal] above is the call with
    no signal pending. *)
Definition signal_signal_pending (pending : bool) (h : Handler) : M unit :=
  when pending deliver_sigint ;;
  signal_signal h.

(** Whether a SIGINT is pending at each of the two calls of [signal.signal]
    in [get_result], lines 136 and 161. *)
Record Pending := mkPending { at_install : bool; at_restore : bool }.

Definition no_pending : Pending := mkPending false false.

Section WithEnv.

Variable env : Env.

(** [super().put(target, data=data)]: the request is issued, the call blocks,
    and either fails to get a response or returns it. *)
Definition put (target : Url) (data : Payload) : M (Z * Json) :=
  fun w =>
    let k := puts w in
    (emit (EvPut target data) ;;
     when (sigint_in_put env k) deliver_sigint ;;
     match server env k with
     | Unreachable => raise ConnectionError
     | Response code body => ret (code, body)
     end) w.

(** [time.sleep(seconds)] *)
Definition sleep (seconds : Z) : M unit :=
  fun w =>
    let k := sleeps w in
    (if (seconds <? 0)%Z then raise (ValueError "sleep length must be non-negative")
     else
       emit (EvSleep seconds) ;;
       when (sigint_in_sleep env k) deliver_sigint) w.

(** [getpass.getpass(prompt=...)] *)
Definition getpass (prompt : string) : M string :=
  emit (EvGetpass prompt) ;; ret (typed_token env).

End WithEnv.

(** [req.raise_for_status()] of [requests]: an [HTTPError] for the client
    error codes 4xx and the server error codes 5xx, nothing otherwise. *)
Definition is_error_status (code : Z) : bool :=
  ((400 <=? code) && (code <? 600))%Z.

Definition raise_for_status (req : Z * Json) : M unit :=
  if is_error_status req.1 then raise (HTTPError req.1) else ret tt.

(** [r_json[key]] for the three keys the client reads. *)
Definition getitem {A} (key : string) (field : option A) : M A :=
  match field with
  | Some v => ret v
  | None => raise (KeyError key)
  end.

Definition get_backends : M (gmap string Device) := fun w => (w, Ret (backends w)).

Definition set_headers (h : gmap string string) : M unit :=
  fun w => (mkWorld (backends w) (token w) h (sigint w) (log w), Ret tt).

(** ** The session class [AQT] *)

(** [AQT.__init__]: a fresh session.  ([self.timeout = 5.0] is never read
    again and is left out, as are the default headers of [requests].) *)
Definition AQT_init : M unit :=
  set_headers ∅ ;;
  set_backends ∅ ;;
  set_token None.

(** [AQT.update_devices_list].  The log records that the method ran. *)
Definition update_devices_list (verbose : bool) : M unit :=
  emit EvRefresh ;;
  set_backends ∅ ;;
  backends_setitem "aqt_simulator" (mkDevice 11 "0.0.1" "sim/") ;;
  backends_setitem "aqt_simulator_noise" (mkDevice 11 "0.0.1" "sim/noise-model-1") ;;
  backends_setitem "aqt_device" (mkDevice 4 "0.0.1" "lint/") ;;
  when verbose
    (print [[Lit "- List of AQT devices available:"]] ;;
     b <- get_backends ;;
     print [[FmtBackends b]]).

(** [AQT.is_online]: [device in self.backends] *)
Definition is_online (device : string) : M bool :=
  fun w => (w, Ret (bool_decide (device ∈ dom (backends w)))).

(** [AQT.can_run_experiment] *)
Definition can_run_experiment (info : Info) (device : string) : M (bool * Z * Z) :=
  d <- backends_getitem device ;;
  let nb_qubit_max := nq d in
  let nb_qubit_needed := info_nq info in
  ret ((nb_qubit_needed <=? nb_qubit_max)%Z, nb_qubit_max, nb_qubit_needed).

(** The methods that [get_result] reaches through [self]: a subclass or a
    test double may replace them. *)
Record Methods := mkMethods {
  self_update_devices_list : bool -> M unit;
  self_is_online : string -> M bool
}.

Definition AQT_methods : Methods := mkMethods update_devices_list is_online.

Definition interrupted_msg (execution_id : string) : string :=
  "Interrupted. The ID of your submitted job is " ++ execution_id ++ ".".
Definition offline_msg (execution_id : string) : string :=
  "Device went offline. The ID of your submitted job is " ++ execution_id ++ ".".
Definition timeout_msg (execution_id : string) : string :=
  "Timeout. The ID of your submitted job is " ++ execution_id ++ ".".
Definition running_error_msg (status : string) : string :=
  "Error while running the code: " ++ status ++ ".".

(** The closure [_handle_sigint_during_get_result]. *)
Definition _handle_sigint_during_get_result (execution_id : string) : Handler :=
  PyHandler "_handle_sigint_during_get_result"
            (Some (Exception (interrupted_msg execution_id))).

Section Session.

Variable env : Env.

(** [AQT.authenticate] *)
Definition authenticate (tok : option string) : M unit :=
  t <- match tok with
       | None => getpass env "AQT token > "
       | Some t => ret t
       end ;;
  headers_update [("Ocp-Apim-Subscription-Key", t); ("SDK", "ProjectQ")] ;;
  set_token (Some t).

(** [AQT.run] *)
Definition run (info : Info) (device : string) : M string :=
  tk <- get_token ;;
  let argument := SubmitArgs (circuit info) tk (shots info) (info_nq info) in
  d <- backends_getitem device ;;
  req <- put env (urljoin _API_URL (url d)) argument ;;
  raise_for_status req ;;
  let r_json := req.2 in
  st <- getitem "status" (j_status r_json) ;;
  if negb (st =? "queued")%string
  then raise (Exception "Error in sending the code online")
  else
    execution_id <- getitem "id" (j_id r_json) ;;
    ret execution_id.

(** One round of the [for] loop of [AQT.get_result], lines 140-157. *)
Definition poll_once (self : Methods) (device execution_id : string) (interval : Z)
    (retries : nat) : M (option (list Z)) :=
  tk <- get_token ;;
  let argument := PollArgs execution_id tk in
  d <- backends_getitem device ;;
  req <- put env (urljoin _API_URL (url d)) argument ;;
  raise_for_status req ;;
  let r_json := req.2 in
  st <- getitem "status" (j_status r_json) ;;
  if (st =? "finished")%string || bool_decide (is_Some (j_samples r_json))
  then
    samples <- getitem "samples" (j_samples r_json) ;;
    ret (Some samples)
  else if negb (st =? "running")%string
  then raise (Exception (running_error_msg st))
  else
    sleep env interval ;;
    online <- self_is_online self device ;;
    if online && (retries mod 60 =? 0)%nat
    then
      self_update_devices_list self false ;;
      still_online <- self_is_online self device ;;
      if negb still_online
      then raise (DeviceOfflineError (offline_msg execution_id))
      else ret None
    else ret None.

(** [AQT.get_result], with the methods reached through [self] as a
    parameter. *)
Definition get_result_with (self : Methods) (device execution_id : string)
    (num_retries interval : Z) (verbose : bool) : M (list Z) :=
  when verbose
    (print [[Lit "Waiting for results. [Job ID: "; Lit execution_id; Lit "]"]]) ;;
  original_sigint_handler <- getsignal ;;
  r <- try_finally
         (signal_signal (_handle_sigint_during_get_result execution_id) ;;
          for_each (range num_retries) (poll_once self device execution_id interval))
         (match original_sigint_handler with
          | Some h => signal_signal h
          | None => ret tt
          end) ;;
  match r with
  | Some samples => ret samples
  | None => raise (RequestTimeoutError (timeout_msg execution_id))
  end.

(** [AQT.get_result] of the class as written. *)
Definition get_result : string -> string -> Z -> Z -> bool -> M (list Z) :=
  get_result_with AQT_methods.

(** [AQT.get_result] once more, lines 127-163, with SIGINT arriving also
    outside the blocking calls: a signal that is pending when one of the two
    calls of [signal.signal] is made is handled by that call.  With no
    signal pending this is [get_result]. *)
Definition get_result_pending (p : Pending) (device execution_id : string)
    (num_retries interval : Z) (verbose : bool) : M (list Z) :=
  when verbose
    (print [[Lit "Waiting for results. [Job ID: "; Lit execution_id; Lit "]"]]) ;;
  original_sigint_handler <- getsignal ;;
  r <- try_finally
         (signal_signal_pending (at_install p)
            (_handle_sigint_during_get_result execution_id) ;;
          for_each (range num_retries)
            (poll_once AQT_methods device execution_id interval))
         (match original_sigint_handler with
          | Some h => signal_signal_pending (at_restore p) h
          | None => ret tt
          end) ;;
  match r with
  | Some samples => ret samples
  | None => raise (RequestTimeoutError (timeout_msg execution_id))
  end.

(** ** The module-level functions *)

(** [show_devices] *)
Definition show_devices (verbose : bool) : M (gmap string Device) :=
  AQT_init ;;
  update_devices_list verbose ;;
  get_backends.

(** [retrieve] *)
Definition retrieve (device : string) (tok : option string) (jobid : string)
    (num_retries interval : Z) (verbose : bool) : M (list Z) :=
  AQT_init ;;
  authenticate tok ;;
  update_devices_list verbose ;;
  res <- get_result device jobid num_retries interval verbose ;;
  ret res.

(** The [try] block of [send], lines 223-261. *)
Definition send_body (info : Info) (device : string) (tok : option string)
    (num_retries interval : Z) (verbose : bool) : M (option (list Z)) :=
  AQT_init ;;
  when verbose (print [[Lit "- Authenticating..."]]) ;;
  match tok with
  | Some t => print [[Lit "user API token: "; Lit t]]
  | None => ret tt
  end ;;
  authenticate tok ;;
  update_devices_list verbose ;;
  online <- is_online device ;;
  when (negb online)
    (print [[Lit "The device is offline (for maintenance?). Use the simulator instead or try again later."]] ;;
     raise (DeviceOfflineError "Device is offline.")) ;;
  fits <- can_run_experiment info device ;;
  let '(runnable, qmax, qneeded) := fits in
  when (negb runnable)
    (print [[Lit "The device is too small ("; Int qmax;
             Lit " qubits available) for the code requested("; Int qneeded;
             Lit " qubits needed)."];
            [Lit "Try to look for another device with more qubits"]] ;;
     raise (DeviceTooSmall "Device is too small.")) ;;
  when verbose (print [[Lit "- Running code: "; FmtInfo info]]) ;;
  execution_id <- run info device ;;
  when verbose (print [[Lit "- Waiting for results..."]]) ;;
  res <- get_result device execution_id num_retries interval verbose ;;
  when verbose (print [[Lit "- Done."]]) ;;
  ret (Some res).

(** What each [except] clause of [send] does before control reaches the
    final [return None]. *)
Definition report (headline : string) (err : exn) : M (option (list Z)) :=
  print [[Lit headline]] ;;
  print [[FmtExn err]] ;;
  ret None.

(** [send] *)
Definition send (info : Info) (device : string) (tok : option string)
    (num_retries interval : Z) (verbose : bool) : M (option (list Z)) :=
  try_except (send_body info device tok num_retries interval verbose)
    [ (cls_HTTPError, report "- There was an error running your code:");
      (cls_RequestException, report "- Looks like something is wrong with server:");
      (cls_KeyError, report "- Failed to parse response:") ].

End Session.

(** ** Vocabulary of the statements *)

(** The catalog that [update_devices_list] installs. *)
Definition catalog : gmap string Device :=
  <["aqt_device" := mkDevice 4 "0.0.1" "lint/"]>
    (<["aqt_simulator_noise" := mkDevice 11 "0.0.1" "sim/noise-model-1"]>
       (<["aqt_simulator" := mkDevice 11 "0.0.1" "sim/"]> ∅)).

(** A world with more calls logged, with another catalog, with another
    SIGINT handler. *)
Definition logged (es : list Event) (w : World) : World :=
  mkWorld (backends w) (token w) (headers w) (sigint w) (log w ++ es).

Definition with_backends (b : gmap string Device) (w : World) : World :=
  mkWorld b (token w) (headers w) (sigint w) (log w).

Definition with_sigint (h : option Handler) (w : World) : World :=
  mkWorld (backends w) (token w) (headers w) h (log w).

(** No SIGINT arrives. *)
Definition quiet (env : Env) : Prop :=
  forall k, sigint_in_put env k = false /\ sigint_in_sleep env k = false.

(** A response that [raise_for_status] lets through and whose JSON says
    ["running"], without a ["samples"] key. *)
Definition is_running (r : Reply) : bool :=
  match r with
  | Response code (mkJson (Some st) _ None) =>
      negb (is_error_status code) && (st =? "running")%string
  | _ => false
  end.



(** [self] refreshes from [portal] and tests liveness as the class does. *)
Definition follows_portal (self : Methods) (portal : nat -> gmap string Device) : Prop :=
  (forall w, self_update_devices_list self false w
             = (with_backends (portal (refreshes w)) (logged [EvRefresh] w), Ret tt))
  /\ (forall device w, self_is_online self device w = is_online device w).

(** How many rounds among [r, r+1, ..., r+n-1] re-check the device. *)
Definition checks (r n : nat) : nat :=
  length (List.filter (fun i => (i mod 60 =? 0)%nat) (seq r n)).

(** Triples: from a world that satisfies [P], the computation [c] either
    returns [a] in a world that satisfies [R a] or raises [e] in a world that
    satisfies [E e]. *)
Definition triple {A} (P : World -> Prop) (c : M A)
    (R : A -> World -> Prop) (E : exn -> World -> Prop) : Prop :=
  forall w, P w ->
    match c w with
    | (w', Ret a) => R a w'
    | (w', Raise e) => E e w'
    end.

Definition is_offline_error (e : exn) : bool :=
  match e with DeviceOfflineError _ => true | _ => false end.

(** The outcome of [get_result] given the outcome of its loop. *)
Definition after_loop (execution_id : string) (r : outcome (option (list Z)))
    : outcome (list Z) :=
  match r with
  | Ret (Some samples) => Ret samples
  | Ret None => Raise (RequestTimeoutError (timeout_msg execution_id))
  | Raise e => Raise e
  end.

(** The world in which the loop of [get_result] starts. *)
Definition loop_entry (execution_id : string) (verbose : bool) (w : World) : World :=
  with_sigint (Some (_handle_sigint_during_get_result execution_id))
    (logged (if verbose
             then [EvPrint [[Lit "Waiting for results. [Job ID: "; Lit execution_id; Lit "]"]]]
             else []) w).

(** What the [finally] block leaves as handler. *)
Definition restored (original : option Handler) (w : World) : World :=
  match original with
  | Some h => with_sigint (Some h) w
  | None => w
  end.



(** The handler of [get_result] is the installed one. *)
Definition handler_installed (execution_id : string) (w : World) : Prop :=
  sigint w = Some (_handle_sigint_during_get_result execution_id).

(** An exception that leaves a round of the loop: the handler is still
    installed, and for a device of the catalog the exception is not
    [DeviceOfflineError]. *)
Definition round_exit (execution_id device : string) (e : exn) (w : World) : Prop :=
  handler_installed execution_id w
  /\ (device ∈ dom catalog -> is_offline_error e = false).

(** The names under which [update_devices_list] registers devices. *)
Definition device_names : list string :=
  ["aqt_simulator"; "aqt_simulator_noise"; "aqt_device"].

(** What stays fixed while [send] prepares the submission: the number of
    requests issued and the SIGINT handler. *)
Definition untouched (k : nat) (h : option Handler) (w : World) : Prop :=
  puts w = k /\ sigint w = h.

(** ... and, once the catalog is refreshed, the catalog itself. *)
Definition ready (k : nat) (h : option Handler) (w : World) : Prop :=
  untouched k h w /\ backends w = catalog.

(** The two lines that an [except] clause of [send] prints. *)
Definition reported (headline : string) (err : exn) : list Event :=
  [EvPrint [[Lit headline]]; EvPrint [[FmtExn err]]].

(** ** Concrete scenarios *)

Definition running_json : Json := mkJson (Some "running") None None.

(** A server that answers 200 "running" for ever. *)
Definition env_running : Env :=
  mkEnv (fun _ => Response 200 running_json) (fun _ => false) (fun _ => false) "secret".

(** [signal.default_int_handler], which raises [KeyboardInterrupt]. *)
Definition default_int_handler : Handler :=
  PyHandler "default_int_handler" (Some KeyboardInterrupt).

(** A session that has refreshed its catalog, in a process with Python's
    default SIGINT handler. *)
Definition w_ready : World :=
  mkWorld catalog (Some "secret") ∅ (Some default_int_handler) [].

(** A session whose catalog holds a device that the refresh does not list. *)
Definition w_stale : World :=
  mkWorld (<["aqt_ghost" := mkDevice 4 "0.0.1" "ghost/"]> catalog)
          (Some "secret") ∅ (Some default_int_handler) [].


(** The poll endpoint of the second scenario: "running" twice, then
    "finished" with one sample. *)
Definition env_third_time (s : Z) : Env :=
  mkEnv (fun k => if (k <? 2)%nat then Response 200 running_json
                  else Response 200 (mkJson (Some "finished") None (Some [s])))
        (fun _ => false) (fun _ => false) "secret".


(** A process whose SIGINT handler was not installed from Python:
    [signal.getsignal] returns [None]. *)
Definition w_foreign_handler : World :=
  mkWorld catalog (Some "secret") ∅ None [].

(** A submit endpoint that answers 300 (Multiple Choices) with a queued
    job in its body. *)
Definition env_multiple_choices : Env :=
  mkEnv (fun _ => Response 300 (mkJson (Some "queued") (Some "job-1") None))
        (fun _ => false) (fun _ => false) "secret".

(** A submit endpoint that answers 200 with a queued job, and one that
    answers 200 with a rejected job. *)
Definition env_queued : Env :=
  mkEnv (fun _ => Response 200 (mkJson (Some "queued") (Some "job-1") None))
        (fun _ => false) (fun _ => false) "secret".

Definition env_rejected : Env :=
  mkEnv (fun _ => Response 200 (mkJson (Some "rejected") (Some "job-1") None))
        (fun _ => false) (fun _ => false) "secret".

Definition bell_pair : Info := mkInfo "X 0.5 0" 100 2.

(** A server that answers 500 to the submission. *)
Definition env_server_error : Env :=
  mkEnv (fun _ => Response 500 (mkJson None None None))
        (fun _ => false) (fun _ => false) "secret".

(** A server that queues the job and then reports it running for ever. *)
Definition env_never_done : Env :=
  mkEnv (fun k => if (k <? 1)%nat
                  then Response 200 (mkJson (Some "queued") (Some "job-1") None)
                  else Response 200 running_json)
        (fun _ => false) (fun _ => false) "secret".

(** The job is reported running and SIGINT arrives during the second
    sleep. *)
Definition env_ctrl_c : Env :=
  mkEnv (fun _ => Response 200 running_json) (fun _ => false)
        (fun k => (k =? 1)%nat) "secret".

(** A process that has not created a session yet. *)
Definition w_start : World :=
  mkWorld ∅ None ∅ (Some default_int_handler) [].

(** The token that [authenticate] ends up with: the one given, or the one
    typed at the prompt. *)
Definition effective_token (env : Env) (tok : option string) : string :=
  match tok with
  | Some t => t
  | None => typed_token env
  end.

(** The request that [run] sends. *)
Definition submit_request (info : Info) (d : Device) (tk : option string) : Event :=
  EvPut (urljoin _API_URL (url d))
        (SubmitArgs (circuit info) tk (shots info) (info_nq info)).

(** A server that cannot be reached. *)
Definition env_down : Env :=
  mkEnv (fun _ => Unreachable) (fun _ => true) (fun _ => true) "typed".

(** A response that [raise_for_status] lets through, with a status and
    with these samples. *)
Definition carries_samples (samples : list Z) (r : Reply) : bool :=
  match r with
  | Response code (mkJson (Some _) _ (Some l)) =>
      negb (is_error_status code) && bool_decide (l = samples)
  | _ => false
  end.

(** The key that a poll response lacks: ["status"] when there is none,
    ["samples"] when the status is "finished" and no samples come with it. *)
Definition missing_key (r : Reply) : option string :=
  match r with
  | Response code (mkJson None _ _) =>
      if is_error_status code then None else Some "status"
  | Response code (mkJson (Some st) _ None) =>
      if is_error_status code then None
      else if (st =? "finished")%string then Some "samples" else None
  | _ => None
  end.

(** The exception of [requests] for a request that got no response or a
    4xx/5xx one. *)
Definition transport_error (r : Reply) : option exn :=
  match r with
  | Unreachable => Some ConnectionError
  | Response code _ => if is_error_status code then Some (HTTPError code) else None
  end.

(** The request that a round of [get_result] sends. *)
Definition poll_request (execution_id : string) (d : Device) (tk : option string) : Event :=
  EvPut (urljoin _API_URL (url d)) (PollArgs execution_id tk).

(** "running" once, then: samples under the status "running"; a response
    without status; a 503. *)
Definition env_then (last : Reply) : Env :=
  mkEnv (fun k => if (k <? 1)%nat then Response 200 running_json else last)
        (fun _ => false) (fun _ => false) "secret".

(** A session that knows no device yet. *)
Definition w_fresh : World :=
  mkWorld ∅ None ∅ (Some default_int_handler) [].

(** What [get_result] may log: a poll request to the API for this
    execution id with this token, a sleep of this length, a printed line and
    a refresh - but no submission and no prompt. *)
Definition poll_event_ok (execution_id : string) (tk : option string) (interval : Z)
    (e : Event) : bool :=
  match e with
  | EvPut (urljoin base _) (PollArgs i t) =>
      bool_decide (base = _API_URL /\ i = execution_id /\ t = tk)
  | EvPut _ (SubmitArgs _ _ _ _) => false
  | EvSleep seconds => bool_decide (seconds = interval)
  | EvPrint _ | EvRefresh => true
  | EvGetpass _ => false
  end.

(** The log has grown from [l0] by events that pass [ok], at most [n]
    requests among them, and the token is [tk]. *)
Definition polled (l0 : list Event) (tk : option string) (ok : Event -> bool)
    (n : nat) (w : World) : Prop :=
  token w = tk
  /\ exists es, log w = (l0 ++ es)%list /\ forallb ok es = true /\ count is_put es <= n.

(** The session in which [retrieve] polls: a new one, authenticated, with
    the catalog refreshed. *)
Definition retrieve_session (env : Env) (tok : option string) (verbose : bool)
    (w : World) : World :=
  (update_devices_list verbose (authenticate env tok (AQT_init w).1).1).1.

(** Why a submission fails, read off the answer of the server: the error
    of [requests], the key that the JSON lacks, or the refusal of a job that
    is not queued.  [None] for an answer that queues the job. *)
Definition submission_error (r : Reply) : option exn :=
  match r with
  | Unreachable => Some ConnectionError
  | Response code body =>
      if is_error_status code then Some (HTTPError code)
      else match j_status body with
           | None => Some (KeyError "status")
           | Some st =>
               if (st =? "queued")%string
               then match j_id body with
                    | None => Some (KeyError "id")
                    | Some _ => None
                    end
               else Some (Exception "Error in sending the code online")
           end
  end.

(** The exceptions that the [except] clauses of [send] handle. *)
Definition caught (e : exn) : bool :=
  isinstance e cls_HTTPError || isinstance e cls_RequestException
  || isinstance e cls_KeyError.

(** A response that [raise_for_status] lets through and that queues the
    job under this id. *)
Definition is_queued_as (execution_id : string) (r : Reply) : bool :=
  match r with
  | Response code (mkJson (Some st) (Some i) _) =>
      negb (is_error_status code) && (st =? "queued")%string
      && (i =? execution_id)%string
  | _ => false
  end.

(** The device is listed and large enough for the job. *)
Definition accepts (info : Info) (device : string) : bool :=
  match catalog !! device with
  | Some d => (info_nq info <=? nq d)%Z
  | None => false
  end.

(** A server that queues the job, reports it running twice and then
    finished. *)
Definition env_job_done : Env :=
  mkEnv (fun k => if (k <? 1)%nat
                  then Response 200 (mkJson (Some "queued") (Some "job-1") None)
                  else if (k <? 3)%nat then Response 200 running_json
                  else Response 200 (mkJson (Some "finished") None (Some [3; 0; 3])%Z))
        (fun _ => false) (fun _ => false) "secret".

(** A job that needs more qubits than any device has. *)
Definition too_large : Info := mkInfo "X 0.5 0" 100 12.

(** What [send] has printed, asked and refreshed when it comes to test the
    device. *)
Definition send_preamble (tok : option string) (verbose : bool) : list Event :=
  ((if verbose then [EvPrint [[Lit "- Authenticating..."]]] else [])
   ++ match tok with
      | Some t => [EvPrint [[Lit "user API token: "; Lit t]]]
      | None => [EvGetpass "AQT token > "]
      end
   ++ [EvRefresh]
   ++ (if verbose
       then [EvPrint [[Lit "- List of AQT devices available:"]];
             EvPrint [[FmtBackends catalog]]]
       else []))%list.

(** The session of [send] at that point: new, authenticated, with the
    catalog refreshed. *)
Definition send_refreshed (env : Env) (tok : option string) (verbose : bool)
    (w : World) : World :=
  mkWorld catalog (Some (effective_token env tok))
    (<["SDK" := "ProjectQ"]>
       (<["Ocp-Apim-Subscription-Key" := effective_token env tok]> ∅))
    (sigint w) (log w ++ send_preamble tok verbose).

(** The lines that [send] prints before it raises [DeviceOfflineError] and
    [DeviceTooSmall]. *)
Definition offline_line : Event :=
  EvPrint [[Lit "The device is offline (for maintenance?). Use the simulator instead or try again later."]].

Definition too_small_line (qmax qneeded : Z) : Event :=
  EvPrint [[Lit "The device is too small ("; Int qmax;
            Lit " qubits available) for the code requested("; Int qneeded;
            Lit " qubits needed)."];
           [Lit "Try to look for another device with more qubits"]].

(** What [send] does with a job that it has let through. *)
Definition submit_and_poll (env : Env) (info : Info) (device : string)
    (num_retries interval : Z) (verbose : bool) : M (option (list Z)) :=
  when verbose (print [[Lit "- Running code: "; FmtInfo info]]) ;;
  execution_id <- run env info device ;;
  when verbose (print [[Lit "- Waiting for results..."]]) ;;
  res <- get_result env device execution_id num_retries interval verbose ;;
  when verbose (print [[Lit "- Done."]]) ;;
  ret (Some res).

(** [w'] is [w] after more calls: the log has grown, and a SIGINT handler
    that was installed from Python is in place. *)
Definition later (w w' : World) : Prop :=
  (exists es, log w' = (log w ++ es)%list)
  /\ forall h0, sigint w = Some h0 -> sigint w' = Some h0.

(** A server that queues the job and then reports it running, with Ctrl-C
    arriving while the first poll request blocks. *)
Definition env_ctrl_c_poll : Env :=
  mkEnv (fun k => if (k <? 1)%nat
                  then Response 200 (mkJson (Some "queued") (Some "job-1") None)
                  else Response 200 running_json)
        (fun k => (k =? 1)%nat) (fun _ => false) "secret".

(** The exception with which [signal.signal] fails: that of the handler in
    place, when a SIGINT is pending and this handler raises. *)
Definition served (pending : bool) (h : option Handler) : option exn :=
  if pending
  then match h with
       | Some (PyHandler _ (Some e)) => Some e
       | _ => None
       end
  else None.

(** The first line that the [except] clause of [send] for this exception
    prints, lines 262-270. *)
Definition headline (e : exn) : string :=
  match e with
  | HTTPError _ => "- There was an error running your code:"
  | ConnectionError => "- Looks like something is wrong with server:"
  | KeyError _ => "- Failed to parse response:"
  | _ => ""
  end.

(** The error of a poll request read off the answer of the server: the
    error of [requests], or the key that the JSON lacks. *)
Definition poll_error (r : Reply) : option exn :=
  match transport_error r with
  | Some e => Some e
  | None => option_map KeyError (missing_key r)
  end.

(** A server that queues the job, reports it running once and then gives
    this answer. *)
Definition env_poll_answer (last : Reply) : Env :=
  mkEnv (fun k => if (k <? 1)%nat
                  then Response 200 (mkJson (Some "queued") (Some "job-1") None)
                  else if (k <? 2)%nat then Response 200 running_json
                  else last)
        (fun _ => false) (fun _ => false) "secret".

(** * Properties *)

(** ** The log *)

Lemma count_app p l l' : count p (l ++ l') = count p l + count p l'.
Proof. unfold count. by rewrite List.filter_app, length_app. Qed.

Lemma puts_logged es w : puts (logged es w) = puts w + count is_put es.
Proof. apply count_app. Qed.

Lemma refreshes_logged es w : refreshes (logged es w) = refreshes w + count is_refresh es.
Proof. apply count_app. Qed.

Lemma logged_nil w : logged [] w = w.
Proof. destruct w. unfold logged. simpl. by rewrite app_nil_r. Qed.

(** ** The wrapper of the loop *)

Lemma get_result_with_eq env self device execution_id num_retries interval verbose w w' r :
  for_each (range num_retries) (poll_once env self device execution_id interval)
    (loop_entry execution_id verbose w) = (w', r) ->
  get_result_with env self device execution_id num_retries interval verbose w
  = (restored (sigint w) w', after_loop execution_id r).
Proof.
  intros Hloop.
  unfold get_result_with, bind, try_finally, getsignal, signal_signal.
  destruct verbose; simpl.
  - unfold loop_entry, with_sigint, logged in Hloop. simpl in Hloop. rewrite Hloop.
    destruct (sigint w); simpl; destruct r as [[s|]|e]; reflexivity.
  - unfold loop_entry in Hloop. rewrite logged_nil in Hloop.
    unfold with_sigint in Hloop. rewrite Hloop.
    destruct (sigint w); simpl; destruct r as [[s|]|e]; reflexivity.
Qed.

(** ** One round of the loop *)

Lemma is_running_inv r :
  is_running r = true ->
  exists code i, r = Response code (mkJson (Some "running") i None)
                 /\ is_error_status code = false.
Proof.
  destruct r as [|code [[st|] i [s|]]]; simpl; try discriminate.
  intros [Hc Hs]%andb_true_iff. apply negb_true_iff in Hc.
  apply String.eqb_eq in Hs. subst st. eauto.
Qed.

Lemma is_online_eq device w :
  is_online device w = (w, Ret (bool_decide (device ∈ dom (backends w)))).
Proof. reflexivity. Qed.

Section Rounds.

Variable env : Env.
Variable self : Methods.
Variable portal : nat -> gmap string Device.
Hypothesis Hself : follows_portal self portal.
Hypothesis Hquiet : quiet env.

Variables device execution_id : string.
Variable interval : Z.
Hypothesis Hinterval : (0 <= interval)%Z.

Let request (w : World) (d : Device) : Event :=
  EvPut (urljoin _API_URL (url d)) (PollArgs execution_id (token w)).

Lemma poll_once_running r w d :
  backends w !! device = Some d ->
  is_running (server env (puts w)) = true ->
  poll_once env self device execution_id interval r w
  = if (r mod 60 =? 0)%nat
    then (with_backends (portal (refreshes w))
            (logged [request w d; EvSleep interval; EvRefresh] w),
          if bool_decide (device ∈ dom (portal (refreshes w)))
          then Ret None
          else Raise (DeviceOfflineError (offline_msg execution_id)))
    else (logged [request w d; EvSleep interval] w, Ret None).
Proof.
  intros Hd Hrun. unfold poll_once.
  generalize (r mod 60 =? 0)%nat; intros check.
  destruct (is_running_inv _ Hrun) as (code & i & Hreply & Hcode).
  destruct Hself as [Hupd Hon].
  unfold poll_once, bind, get_token, backends_getitem. rewrite Hd.
  unfold put, bind, emit, when. simpl.
  destruct (Hquiet (puts w)) as [-> _]. unfold ret at 1.
  rewrite Hreply. unfold ret at 1.
  unfold raise_for_status. simpl. rewrite Hcode. unfold ret at 1. simpl.
  unfold sleep, bind, emit, when.
  assert (Hlt : (interval <? 0)%Z = false) by (apply Z.ltb_ge; lia).
  rewrite Hlt.
  match goal with |- context [sigint_in_sleep env ?k] =>
    destruct (Hquiet k) as [_ ->] end.
  unfold ret at 1.
  rewrite Hon, is_online_eq. simpl.
  assert (Hin : bool_decide (device ∈ dom (backends w)) = true).
  { apply bool_decide_eq_true. apply elem_of_dom. eauto. }
  rewrite Hin. clear Hin. simpl.
  destruct check; simpl.
  - rewrite Hupd, Hon, is_online_eq.
    unfold with_backends, logged, request, refreshes. simpl.
    rewrite <- !app_assoc, !count_app. unfold count. simpl.
    rewrite ?Nat.add_0_r.
    simpl. destruct (bool_decide (device ∈ _)); reflexivity.
  - unfold ret, logged, request. simpl. by rewrite <- app_assoc.
Qed.



Lemma checks_S r n :
  checks r (S n) = (if (r mod 60 =? 0)%nat then 1 else 0) + checks (S r) n.
Proof.
  unfold checks. cbn [seq List.filter].
  destruct (r mod 60 =? 0)%nat; reflexivity.
Qed.

(** [n] rounds in a row that find the job running and the device online. *)
Lemma running_rounds n : forall r w,
  device ∈ dom (backends w) ->
  (forall i, i < n -> is_running (server env (puts w + i)) = true) ->
  (forall k, k < checks r n -> device ∈ dom (portal (refreshes w + k))) ->
  exists w',
    for_each (seq r n) (poll_once env self device execution_id interval) w = (w', Ret None)
    /\ puts w' = puts w + n
    /\ refreshes w' = refreshes w + checks r n
    /\ device ∈ dom (backends w')
    /\ sigint w' = sigint w.
Proof.
  induction n as [|n IH]; intros r w Hdev Hrun Hportal.
  - exists w. unfold checks. simpl. rewrite !Nat.add_0_r. auto.
  - destruct (proj1 (elem_of_dom _ _) Hdev) as [d Hd].
    assert (Hrun0 : is_running (server env (puts w)) = true).
    { rewrite <- (Nat.add_0_r (puts w)). apply Hrun. lia. }
    cbn [seq for_each]. unfold bind at 1.
    rewrite (poll_once_running r w d Hd Hrun0).
    rewrite checks_S in *.
    destruct (r mod 60 =? 0)%nat.
    + assert (Hnow : device ∈ dom (portal (refreshes w))).
      { rewrite <- (Nat.add_0_r (refreshes w)). apply Hportal. simpl. lia. }
      rewrite (bool_decide_eq_true_2 _ Hnow).
      set (w1 := with_backends _ _).
      destruct (IH (S r) w1) as (w' & Hloop & Hputs & Hrefr & Hdev' & Hsig).
      * exact Hnow.
      * intros i Hi. replace (puts w1 + i) with (puts w + S i); [apply Hrun; lia|].
        subst w1. unfold with_backends, puts. simpl. rewrite count_app.
        unfold count. simpl. lia.
      * intros k Hk. replace (refreshes w1 + k) with (refreshes w + S k);
          [apply Hportal; simpl; lia|].
        subst w1. unfold with_backends, refreshes. simpl. rewrite count_app.
        unfold count. simpl. lia.
      * exists w'. split; [exact Hloop|].
        subst w1. unfold with_backends, puts, refreshes in *. simpl in *.
        rewrite count_app in Hputs, Hrefr. unfold count in *. simpl in *.
        repeat split; [lia | lia | exact Hdev' | exact Hsig].
    + set (w1 := logged _ w).
      destruct (IH (S r) w1) as (w' & Hloop & Hputs & Hrefr & Hdev' & Hsig).
      * exact Hdev.
      * intros i Hi. replace (puts w1 + i) with (puts w + S i); [apply Hrun; lia|].
        subst w1. rewrite puts_logged. unfold count. simpl. lia.
      * intros k Hk. replace (refreshes w1 + k) with (refreshes w + k);
          [apply Hportal; simpl; lia|].
        subst w1. rewrite refreshes_logged. unfold count. simpl. lia.
      * exists w'. split; [exact Hloop|].
        subst w1. rewrite puts_logged in Hputs. rewrite refreshes_logged in Hrefr.
        unfold count in *. simpl in *.
        repeat split; [lia | lia | exact Hdev' | exact Hsig].
Qed.

End Rounds.

Lemma for_each_app {A} xs ys (body : nat -> M (option A)) w :
  for_each (xs ++ ys) body w
  = match for_each xs body w with
    | (w', Ret None) => for_each ys body w'
    | other => other
    end.
Proof.
  revert w. induction xs as [|x xs IH]; intros w; simpl; [reflexivity|].
  unfold bind. destruct (body x w) as [w1 [[v|]|e]]; simpl; auto.
Qed.


(** ** Where the liveness checks fall *)

Lemma checks_app r n m : checks r (n + m) = checks r n + checks (r + n) m.
Proof.
  unfold checks. by rewrite seq_app, List.filter_app, length_app.
Qed.

Lemma checks_shift n : forall r, checks (60 + r) n = checks r n.
Proof.
  induction n as [|n IH]; intros r; [reflexivity|].
  rewrite !checks_S. replace (S (60 + r)) with (60 + S r) by lia. rewrite IH.
  replace ((60 + r) mod 60) with (r mod 60); [reflexivity|].
  replace (60 + r) with (r + 1 * 60) by lia. by rewrite Nat.Div0.mod_add.
Qed.

Lemma checks_multiple j : checks 0 (60 * j) = j.
Proof.
  induction j as [|j IH]; [reflexivity|].
  replace (60 * S j) with (60 + 60 * j) by lia.
  rewrite checks_app. replace (0 + 60) with (60 + 0) by lia.
  rewrite checks_shift, IH. reflexivity.
Qed.


Lemma AQT_follows_portal : follows_portal AQT_methods (fun _ => catalog).
Proof. split; reflexivity. Qed.

Lemma puts_loop_entry id verbose w : puts (loop_entry id verbose w) = puts w.
Proof.
  unfold loop_entry, with_sigint, puts. simpl. rewrite count_app.
  destruct verbose; unfold count; simpl; lia.
Qed.

Lemma refreshes_loop_entry id verbose w : refreshes (loop_entry id verbose w) = refreshes w.
Proof.
  unfold loop_entry, with_sigint, refreshes. simpl. rewrite count_app.
  destruct verbose; unfold count; simpl; lia.
Qed.

Lemma puts_with_backends b w : puts (with_backends b w) = puts w.
Proof. reflexivity. Qed.


Lemma puts_restored o w : puts (restored o w) = puts w.
Proof. by destruct o. Qed.

Lemma refreshes_restored o w : refreshes (restored o w) = refreshes w.
Proof. by destruct o. Qed.

(** ** The loop up to its deciding round *)

(** After [k] rounds that find the job running and the device online, the
    round of index [k] decides the call when it does not fall through. *)
Lemma get_result_with_prefix env self portal device execution_id
    num_retries interval verbose w k :
  follows_portal self portal ->
  quiet env ->
  (0 <= interval)%Z ->
  device ∈ dom (backends w) ->
  (forall i, i < k -> is_running (server env (puts w + i)) = true) ->
  (forall i, i < checks 0 k -> device ∈ dom (portal (refreshes w + i))) ->
  (Z.of_nat k < num_retries)%Z ->
  exists w1,
    puts w1 = puts w + k
    /\ refreshes w1 = refreshes w + checks 0 k
    /\ device ∈ dom (backends w1)
    /\ forall w2 r,
         poll_once env self device execution_id interval k w1 = (w2, r) ->
         r <> Ret None ->
         get_result_with env self device execution_id num_retries interval verbose w
         = (restored (sigint w) w2, after_loop execution_id r).
Proof.
  intros Hself Hquiet Hint Hdev Hrun Hportal Hbudget.
  destruct (running_rounds env self portal Hself Hquiet device execution_id interval
              Hint k 0 (loop_entry execution_id verbose w))
    as (w1 & Hloop & Hputs & Hrefr & Hdev1 & _).
  { exact Hdev. }
  { intros i Hi. rewrite puts_loop_entry. by apply Hrun. }
  { intros i Hi. rewrite refreshes_loop_entry. by apply Hportal. }
  rewrite puts_loop_entry in Hputs. rewrite refreshes_loop_entry in Hrefr.
  exists w1. repeat split; [exact Hputs | exact Hrefr | exact Hdev1 |].
  intros w2 r Hround Hr.
  apply get_result_with_eq.
  assert (Hsplit : range num_retries
                   = (seq 0 k ++ k :: seq (S k) (Z.to_nat num_retries - S k))%list).
  { unfold range.
    replace (Z.to_nat num_retries) with (k + S (Z.to_nat num_retries - S k)) at 1 by lia.
    by rewrite seq_app. }
  rewrite Hsplit, for_each_app, Hloop. cbn [for_each]. unfold bind at 1.
  rewrite Hround. destruct r as [[v|]|e]; [reflexivity | congruence | reflexivity].
Qed.




(** ** The scripted poll endpoint *)



(** When every round finds the job running and the device online, the loop
    runs to its end and the call times out. *)
Lemma get_result_with_all_running env self portal device execution_id
    num_retries interval verbose w :
  follows_portal self portal ->
  quiet env ->
  (0 <= interval)%Z ->
  device ∈ dom (backends w) ->
  (forall i, i < Z.to_nat num_retries -> is_running (server env (puts w + i)) = true) ->
  (forall i, i < checks 0 (Z.to_nat num_retries) ->
             device ∈ dom (portal (refreshes w + i))) ->
  let out := get_result_with env self device execution_id num_retries interval verbose w in
  out.2 = Raise (RequestTimeoutError (timeout_msg execution_id))
  /\ puts out.1 = puts w + Z.to_nat num_retries
  /\ refreshes out.1 = refreshes w + checks 0 (Z.to_nat num_retries).
Proof.
  intros Hself Hquiet Hint Hdev Hrun Hportal out. subst out.
  destruct (running_rounds env self portal Hself Hquiet device execution_id interval
              Hint (Z.to_nat num_retries) 0 (loop_entry execution_id verbose w))
    as (w1 & Hloop & Hputs & Hrefr & _).
  { exact Hdev. }
  { intros i Hi. rewrite puts_loop_entry. by apply Hrun. }
  { intros i Hi. rewrite refreshes_loop_entry. by apply Hportal. }
  rewrite puts_loop_entry in Hputs. rewrite refreshes_loop_entry in Hrefr.
  rewrite (get_result_with_eq _ _ _ _ _ _ _ _ _ _ Hloop).
  cbn [fst snd after_loop]. rewrite puts_restored, refreshes_restored. auto.
Qed.





(** ** Triples *)

Lemma triple_ret {A} (P : World -> Prop) (a : A) R E :
  (forall w, P w -> R a w) -> triple P (ret a) R E.
Proof. intros H w Hw. simpl. auto. Qed.

Lemma triple_raise {A} (P : World -> Prop) e (R : A -> World -> Prop) E :
  (forall w, P w -> E e w) -> triple P (raise e) R E.
Proof. intros H w Hw. simpl. auto. Qed.

Lemma triple_bind {A B} (P : World -> Prop) (c : M A) (k : A -> M B) Q R E :
  triple P c Q E ->
  (forall a, triple (Q a) (k a) R E) ->
  triple P (bind c k) R E.
Proof.
  intros Hc Hk w Hw. unfold bind. specialize (Hc w Hw).
  destruct (c w) as [w1 [a|e]]; [|exact Hc]. by apply Hk.
Qed.

Lemma triple_for_each {A} (I : World -> Prop) xs (body : nat -> M (option A)) E :
  (forall x, triple I (body x) (fun _ => I) E) ->
  triple I (for_each xs body) (fun _ => I) E.
Proof.
  intros Hbody. induction xs as [|x xs IH]; simpl.
  - by apply triple_ret.
  - eapply triple_bind; [apply Hbody|].
    intros [v|]; [by apply triple_ret | exact IH].
Qed.

(** ** What every round of the loop preserves *)

Section Preserved.

Variable env : Env.
Variables device execution_id : string.

Let I := handler_installed execution_id.
Let E := round_exit execution_id device.

Lemma handler_emit ev : triple I (emit ev) (fun _ => I) E.
Proof. intros w Hw. exact Hw. Qed.

Lemma handler_deliver_sigint : triple I deliver_sigint (fun _ => I) E.
Proof.
  intros w Hw. unfold deliver_sigint. rewrite Hw. simpl. split; [exact Hw | reflexivity].
Qed.

Lemma handler_put target data : triple I (put env target data) (fun _ => I) E.
Proof.
  intros w Hw. unfold put.
  apply (triple_bind I _ _ (fun _ => I)); [apply handler_emit | | exact Hw].
  intros _. apply (triple_bind I _ _ (fun _ => I)).
  - destruct (sigint_in_put env (puts w)); simpl;
      [apply handler_deliver_sigint | by apply triple_ret].
  - intros _. destruct (server env (puts w)).
    + apply triple_raise. intros w' Hw'. by split.
    + by apply triple_ret.
Qed.

Lemma handler_sleep seconds : triple I (sleep env seconds) (fun _ => I) E.
Proof.
  intros w Hw. unfold sleep. destruct (seconds <? 0)%Z.
  - by split.
  - apply (triple_bind I _ _ (fun _ => I)); [apply handler_emit | | exact Hw].
    intros _. destruct (sigint_in_sleep env (sleeps w)); simpl;
      [apply handler_deliver_sigint | by apply triple_ret].
Qed.

Lemma handler_getitem {A} key (field : option A) :
  triple I (getitem key field) (fun _ => I) E.
Proof.
  destruct field; simpl; [by apply triple_ret |].
  apply triple_raise. intros w Hw. by split.
Qed.

Lemma handler_backends_getitem key : triple I (backends_getitem key) (fun _ => I) E.
Proof.
  intros w Hw. unfold backends_getitem. destruct (backends w !! key); [exact Hw | by split].
Qed.

Lemma handler_raise_for_status req : triple I (raise_for_status req) (fun _ => I) E.
Proof.
  unfold raise_for_status. destruct (is_error_status req.1); [|by apply triple_ret].
  apply triple_raise. intros w Hw. by split.
Qed.

(** The liveness check of the class: after the refresh the catalog is the
    fixed one, so the device is found again whenever it is one of its
    entries. *)
Lemma handler_liveness_check :
  triple I
    (self_update_devices_list AQT_methods false ;;
     still_online <- self_is_online AQT_methods device ;;
     if negb still_online
     then raise (DeviceOfflineError (offline_msg execution_id))
     else ret (@None (list Z)))
    (fun _ => I) E.
Proof.
  intros w Hw. unfold bind. simpl.
  change (<["aqt_device":=_]> _) with catalog.
  destruct (bool_decide (device ∈ dom catalog)) eqn:Hin; simpl.
  - exact Hw.
  - split; [exact Hw|]. intros Hcat.
    apply bool_decide_eq_false in Hin. contradiction.
Qed.

Lemma handler_poll_once interval retries :
  triple I (poll_once env AQT_methods device execution_id interval retries)
    (fun _ => I) E.
Proof.
  unfold poll_once.
  apply (triple_bind I _ _ (fun _ => I)); [intros w Hw; exact Hw|]. intros tk.
  apply (triple_bind I _ _ (fun _ => I)); [apply handler_backends_getitem|]. intros d.
  apply (triple_bind I _ _ (fun _ => I)); [apply handler_put|]. intros req.
  apply (triple_bind I _ _ (fun _ => I)); [apply handler_raise_for_status|]. intros _.
  apply (triple_bind I _ _ (fun _ => I)); [apply handler_getitem|]. intros st.
  destruct (_ || _).
  { apply (triple_bind I _ _ (fun _ => I)); [apply handler_getitem|].
    intros s. by apply triple_ret. }
  destruct (negb _).
  { apply triple_raise. intros w Hw. by split. }
  apply (triple_bind I _ _ (fun _ => I)); [apply handler_sleep|]. intros _.
  apply (triple_bind I _ _ (fun _ => I)); [intros w Hw; exact Hw|]. intros online.
  destruct (online && _); [apply handler_liveness_check | by apply triple_ret].
Qed.

Lemma handler_loop interval xs :
  triple I (for_each xs (poll_once env AQT_methods device execution_id interval))
    (fun _ => I) E.
Proof. apply triple_for_each. intros x. apply handler_poll_once. Qed.

End Preserved.

Lemma handler_installed_loop_entry execution_id verbose w :
  handler_installed execution_id (loop_entry execution_id verbose w).
Proof. reflexivity. Qed.

Lemma catalog_names device : In device device_names <-> device ∈ dom catalog.
Proof.
  unfold catalog, device_names. rewrite !dom_insert_L, dom_empty_L.
  rewrite !elem_of_union, !elem_of_singleton, elem_of_empty. simpl.
  intuition congruence.
Qed.

(** C9: for a device that is one of the three entries of the catalog,
    [get_result] never raises [DeviceOfflineError], whatever the server
    answers and whenever SIGINT arrives. *)
Theorem get_result_never_offline env device execution_id num_retries interval
    verbose w msg :
  In device device_names ->
  (get_result env device execution_id num_retries interval verbose w).2
  <> Raise (DeviceOfflineError msg).
Proof.
  intros Hcat%catalog_names. unfold get_result.
  pose proof (handler_loop env device execution_id interval (range num_retries)
                (loop_entry execution_id verbose w)
                (handler_installed_loop_entry _ _ _)) as Hloop.
  destruct (for_each _ _ _) as [w' r] eqn:Heq.
  rewrite (get_result_with_eq _ _ _ _ _ _ _ _ _ _ Heq). cbn [snd].
  destruct r as [[s|]|e]; cbn [after_loop]; try discriminate.
  destruct Hloop as [_ He]. specialize (He Hcat).
  intros [= ->]. discriminate.
Qed.

Lemma get_result_never_offline_witness :
  (get_result env_running "aqt_device" "job" 3000 1 false w_ready).2
  <> Raise (DeviceOfflineError (offline_msg "job")).
Proof.
  apply (get_result_never_offline env_running "aqt_device" "job" 3000 1 false w_ready
           (offline_msg "job")).
  simpl. auto.
Defined.

(** An interrupt while the first request blocks: the call ends with the
    exception of its handler, which carries the execution id. *)
Lemma get_result_interrupted env device execution_id num_retries interval verbose w d :
  backends w !! device = Some d ->
  sigint_in_put env (puts w) = true ->
  (0 < num_retries)%Z ->
  let out := get_result env device execution_id num_retries interval verbose w in
  out.2 = Raise (Exception (interrupted_msg execution_id))
  /\ puts out.1 = puts w + 1.
Proof.
  intros Hd Hint Hpos out. subst out. unfold get_result.
  erewrite get_result_with_eq; cycle 1.
  { unfold range. destruct (Z.to_nat num_retries) as [|n] eqn:Hn; [lia|].
    cbn [seq for_each]. unfold bind at 1.
    unfold poll_once, bind, get_token, backends_getitem.
    change (backends (loop_entry execution_id verbose w)) with (backends w).
    rewrite Hd. unfold put, bind, emit, when. cbn [fst snd].
    rewrite puts_loop_entry, Hint. unfold deliver_sigint. cbn [sigint loop_entry with_sigint].
    reflexivity. }
  cbn [fst snd after_loop]. split; [reflexivity|].
  rewrite puts_restored. unfold puts. cbn [log]. rewrite count_app.
  fold (puts (loop_entry execution_id verbose w)). rewrite puts_loop_entry.
  reflexivity.
Qed.

(** Ctrl-C during the second sleep of a poll: the exception of the handler
    of [get_result] surfaces and the default handler is back in place. *)
Lemma get_result_ctrl_c :
  let out := get_result env_ctrl_c "aqt_simulator" "job" 3000 1 false w_ready in
  out.2 = Raise (Exception "Interrupted. The ID of your submitted job is job.")
  /\ sigint out.1 = Some default_int_handler
  /\ puts out.1 = 2.
Proof. vm_compute. repeat split. Qed.

(** ** No retries *)


(** ** Catalog and capacity *)

Lemma update_devices_list_backends verbose w :
  (update_devices_list verbose w).2 = Ret tt
  /\ backends (update_devices_list verbose w).1 = catalog.
Proof. destruct verbose; split; reflexivity. Qed.

(** C8: [is_online] answers whether the name is a key of the current
    catalog and changes nothing; [update_devices_list] installs the same
    catalog whatever was there before, so that running it twice gives what
    running it once gives. *)
Theorem catalog_refresh_idempotent :
  (forall device w,
      exists b, is_online device w = (w, Ret b)
                /\ (b = true <-> device ∈ dom (backends w)))
  /\ (forall verbose w,
         (update_devices_list verbose w).2 = Ret tt
         /\ backends (update_devices_list verbose w).1 = catalog)
  /\ (forall verbose verbose' w w',
         backends (update_devices_list verbose w).1
         = backends (update_devices_list verbose' w').1)
  /\ (forall verbose verbose' w,
         backends (update_devices_list verbose' (update_devices_list verbose w).1).1
         = backends (update_devices_list verbose w).1)
  /\ (forall device, device ∈ dom catalog <-> In device device_names).
Proof.
  repeat split.
  - intros device w. eexists. split; [reflexivity|]. apply bool_decide_eq_true.
  - apply update_devices_list_backends.
  - apply update_devices_list_backends.
  - intros verbose verbose' w w'.
    by rewrite !(proj2 (update_devices_list_backends _ _)).
  - intros verbose verbose' w.
    by rewrite !(proj2 (update_devices_list_backends _ _)).
  - apply catalog_names.
  - apply catalog_names.
Qed.

(** C3: [can_run_experiment] leaves the world as it is (no call is logged,
    nothing is assigned).  For a device of the session's catalog it returns
    the capacity of the device and the size of the job unchanged, together
    with a flag that is true exactly when the job is not larger than the
    capacity; for a name that is not in the catalog it raises [KeyError]. *)
Theorem can_run_experiment_spec info device w :
  match backends w !! device with
  | Some d =>
      exists fits,
        can_run_experiment info device w = (w, Ret (fits, nq d, info_nq info))
        /\ (fits = true <-> (info_nq info <= nq d)%Z)
  | None => can_run_experiment info device w = (w, Raise (KeyError device))
  end.
Proof.
  unfold can_run_experiment, bind, backends_getitem.
  destruct (backends w !! device) as [d|]; [|reflexivity].
  eexists. split; [reflexivity|]. apply Z.leb_le.
Qed.

(** ** Submission *)

(** C4 (as amended): [run] raises, and so returns no execution id, whenever
    the response has a 4xx or 5xx status code or its JSON status is not
    "queued"; when the response is let through by [raise_for_status], says
    "queued" and carries an id, [run] returns that id. *)
Theorem run_raises_or_returns_id env info device w :
  (forall code body,
      server env (puts w) = Response code body ->
      (400 <= code < 600)%Z \/ j_status body <> Some "queued" ->
      exists e, (run env info device w).2 = Raise e)
  /\ (forall code body d execution_id,
         server env (puts w) = Response code body ->
         ~ (400 <= code < 600)%Z ->
         j_status body = Some "queued" ->
         j_id body = Some execution_id ->
         backends w !! device = Some d ->
         sigint_in_put env (puts w) = false ->
         (run env info device w).2 = Ret execution_id).
Proof.
  split.
  - intros code body Hreply Hbad.
    unfold run, bind, get_token, backends_getitem.
    destruct (backends w !! device) as [d|]; [|eauto].
    unfold put, bind, emit, when. cbn [fst snd].
    destruct (sigint_in_put env (puts w)).
    + unfold deliver_sigint. cbn [sigint].
      destruct (sigint w) as [[| |name [e|]]|]; [| |eauto| |]; cbn [ret].
      all: rewrite Hreply; cbn [ret]; unfold raise_for_status; cbn [fst snd];
        destruct (is_error_status code) eqn:Hcode; [eauto|]; cbn [ret];
        destruct (j_status body) as [st|] eqn:Hst; [|eauto]; cbn [getitem ret];
        destruct (st =? "queued")%string eqn:Hq; [|eauto];
        apply String.eqb_eq in Hq; subst st;
        destruct Hbad as [Hrange|Hne]; [|congruence];
        unfold is_error_status in Hcode; lia.
    + cbn [ret]. rewrite Hreply; cbn [ret]; unfold raise_for_status; cbn [fst snd];
        destruct (is_error_status code) eqn:Hcode; [eauto|]; cbn [ret];
        destruct (j_status body) as [st|] eqn:Hst; [|eauto]; cbn [getitem ret];
        destruct (st =? "queued")%string eqn:Hq; [|eauto];
        apply String.eqb_eq in Hq; subst st;
        destruct Hbad as [Hrange|Hne]; [|congruence];
        unfold is_error_status in Hcode; lia.
  - intros code body d execution_id Hreply Hcode Hst Hid Hd Hquiet.
    unfold run, bind, get_token, backends_getitem. rewrite Hd.
    unfold put, bind, emit, when. cbn [fst snd]. rewrite Hquiet. cbn [ret].
    rewrite Hreply. cbn [ret]. unfold raise_for_status. cbn [fst snd].
    assert (Hok : is_error_status code = false).
    { unfold is_error_status. lia. }
    rewrite Hok. cbn [ret]. rewrite Hst. cbn [getitem ret negb String.eqb].
    rewrite Hid. reflexivity.
Qed.

Lemma run_raises_or_returns_id_witness :
  (exists e, (run env_rejected bell_pair "aqt_device" w_ready).2 = Raise e)
  /\ (run env_queued bell_pair "aqt_device" w_ready).2 = Ret "job-1".
Proof.
  split.
  - apply (proj1 (run_raises_or_returns_id env_rejected bell_pair "aqt_device" w_ready)
             200%Z (mkJson (Some "rejected") (Some "job-1") None)).
    + reflexivity.
    + right. discriminate.
  - apply (proj2 (run_raises_or_returns_id env_queued bell_pair "aqt_device" w_ready)
             200%Z (mkJson (Some "queued") (Some "job-1") None)
             (mkDevice 4 "0.0.1" "lint/") "job-1").
    + reflexivity.
    + lia.
    + reflexivity.
    + reflexivity.
    + reflexivity.
    + reflexivity.
Defined.

Lemma run_accepts_a_non_2xx_response :
  (run env_multiple_choices bell_pair "aqt_device" w_ready).2 = Ret "job-1".
Proof. reflexivity. Qed.

(** ** What the [try] block of [send] raises *)

Lemma triple_pure {A} (P : World -> Prop) (phi : Prop) (c : M A) R E :
  (phi -> triple P c R E) -> triple (fun w => P w /\ phi) c R E.
Proof. intros H w [Hw Hphi]. by apply H. Qed.

Lemma update_devices_list_eq verbose w :
  update_devices_list verbose w
  = (logged (if verbose
             then [EvPrint [[Lit "- List of AQT devices available:"]];
                   EvPrint [[FmtBackends catalog]]]
             else [])
       (with_backends catalog (logged [EvRefresh] w)),
     Ret tt).
Proof.
  destruct verbose.
  - unfold update_devices_list, bind, emit, set_backends, backends_setitem, when,
      print, emit, get_backends, logged, with_backends.
    cbn [fst snd log backends token headers sigint set_backends].
    by rewrite <- app_assoc.
  - by rewrite logged_nil.
Qed.

Section Submission.

Variable env : Env.
Variable info : Info.
Variable device : string.
Variable k : nat.
Variable h : option Handler.
Variable E : exn -> World -> Prop.

Lemma untouched_emit ev :
  is_put ev = false -> triple (untouched k h) (emit ev) (fun _ => untouched k h) E.
Proof.
  intros Hev w [Hk Hh]. split; [|exact Hh].
  unfold puts. cbn [emit fst log]. rewrite count_app. unfold count at 2.
  cbn [List.filter]. rewrite Hev. fold (puts w). simpl. lia.
Qed.

Lemma untouched_when b c :
  triple (untouched k h) c (fun _ => untouched k h) E ->
  triple (untouched k h) (when b c) (fun _ => untouched k h) E.
Proof. intros Hc. destruct b; [exact Hc | by apply triple_ret]. Qed.

Lemma untouched_AQT_init : triple (untouched k h) AQT_init (fun _ => untouched k h) E.
Proof. intros w Hw. exact Hw. Qed.

Lemma untouched_authenticate tok :
  triple (untouched k h) (authenticate env tok) (fun _ => untouched k h) E.
Proof.
  unfold authenticate.
  apply (triple_bind _ _ _ (fun _ => untouched k h)).
  - destruct tok; [by apply triple_ret|]. unfold getpass.
    apply (triple_bind _ _ _ (fun _ => untouched k h));
      [by apply untouched_emit | intros _; by apply triple_ret].
  - intros t w Hw. exact Hw.
Qed.

Lemma ready_update_devices_list verbose :
  triple (untouched k h) (update_devices_list verbose) (fun _ => ready k h) E.
Proof.
  intros w [Hk Hh]. rewrite update_devices_list_eq. repeat split.
  - rewrite puts_logged, puts_with_backends, puts_logged, Hk.
    destruct verbose; unfold count; cbn [List.filter is_put length]; lia.
  - exact Hh.
Qed.

Lemma ready_is_online :
  triple (ready k h) (is_online device)
    (fun b w => ready k h w /\ b = bool_decide (device ∈ dom catalog)) E.
Proof. intros w Hw. split; [exact Hw|]. cbn. by rewrite (proj2 Hw). Qed.

Lemma ready_can_run_experiment d :
  catalog !! device = Some d ->
  triple (ready k h) (can_run_experiment info device)
    (fun fits w => ready k h w
                   /\ fits = ((info_nq info <=? nq d)%Z, nq d, info_nq info)) E.
Proof.
  intros Hd w Hw. unfold can_run_experiment, bind, backends_getitem.
  rewrite (proj2 Hw), Hd. by split.
Qed.

Lemma ready_emit ev :
  is_put ev = false -> triple (ready k h) (emit ev) (fun _ => ready k h) E.
Proof.
  intros Hev w [Hw Hb]. split; [|exact Hb]. by apply (untouched_emit ev Hev w).
Qed.

End Submission.

(** The steps of [send_body] up to the liveness test. *)
Ltac prelude device k h :=
  unfold send_body;
  apply (triple_bind _ _ _ (fun _ => untouched k h)); [apply untouched_AQT_init|];
  intros _;
  apply (triple_bind _ _ _ (fun _ => untouched k h));
    [apply untouched_when; by apply untouched_emit|];
  intros _;
  apply (triple_bind _ _ _ (fun _ => untouched k h));
    [match goal with |- context [match ?tok with Some _ => _ | None => _ end] =>
       destruct tok end; [by apply untouched_emit | by apply triple_ret]|];
  intros _;
  apply (triple_bind _ _ _ (fun _ => untouched k h)); [apply untouched_authenticate|];
  intros _;
  apply (triple_bind _ _ _ (fun _ => ready k h)); [apply ready_update_devices_list|];
  intros _;
  apply (triple_bind _ _ _
           (fun b w => ready k h w /\ b = bool_decide (device ∈ dom catalog)));
    [apply ready_is_online|];
  intros online; apply triple_pure; intros ->.

Lemma send_body_offline env info device tok num_retries interval verbose k h :
  device ∉ dom catalog ->
  triple (untouched k h) (send_body env info device tok num_retries interval verbose)
    (fun _ _ => False)
    (fun e _ => e = DeviceOfflineError "Device is offline.").
Proof.
  intros Hout. prelude device k h.
  rewrite (bool_decide_eq_false_2 _ Hout). cbn [negb when].
  apply (triple_bind _ _ _ (fun _ _ => False)); [|intros _ w []].
  apply (triple_bind _ _ _ (fun _ => ready k h)); [by apply ready_emit|].
  intros _. by apply triple_raise.
Qed.

Lemma send_body_too_small env info device tok num_retries interval verbose k h d :
  catalog !! device = Some d ->
  (nq d < info_nq info)%Z ->
  triple (untouched k h) (send_body env info device tok num_retries interval verbose)
    (fun _ _ => False)
    (fun e _ => e = DeviceTooSmall "Device is too small.").
Proof.
  intros Hd Hbig. prelude device k h.
  rewrite bool_decide_eq_true_2 by (apply elem_of_dom; eauto). cbn [negb when].
  apply (triple_bind _ _ _ (fun _ => ready k h)); [by apply triple_ret|]. intros _.
  apply (triple_bind _ _ _
           (fun fits w => ready k h w
                          /\ fits = ((info_nq info <=? nq d)%Z, nq d, info_nq info)));
    [by apply ready_can_run_experiment|].
  intros fits. apply triple_pure. intros ->.
  replace (info_nq info <=? nq d)%Z with false by (symmetry; apply Z.leb_gt; lia).
  cbn [negb when].
  apply (triple_bind _ _ _ (fun _ _ => False)); [|intros _ w []].
  apply (triple_bind _ _ _ (fun _ => ready k h)); [by apply ready_emit|].
  intros _. by apply triple_raise.
Qed.

Lemma run_http_error env info device k h d code body :
  catalog !! device = Some d ->
  server env k = Response code body ->
  (400 <= code < 600)%Z ->
  sigint_in_put env k = false ->
  triple (ready k h) (run env info device)
    (fun _ _ => False) (fun e _ => e = HTTPError code).
Proof.
  intros Hd Hreply Hcode Hquiet w [[Hk Hh] Hb].
  unfold run, bind, get_token, backends_getitem. rewrite Hb, Hd.
  unfold put, bind, emit, when. cbn [fst snd]. rewrite Hk, Hquiet. cbn [ret].
  rewrite Hreply. cbn [ret]. unfold raise_for_status. cbn [fst snd].
  replace (is_error_status code) with true; [reflexivity|].
  unfold is_error_status. lia.
Qed.

Lemma send_body_http_error env info device tok num_retries interval verbose k h d
    code body :
  catalog !! device = Some d ->
  (info_nq info <= nq d)%Z ->
  server env k = Response code body ->
  (400 <= code < 600)%Z ->
  sigint_in_put env k = false ->
  triple (untouched k h) (send_body env info device tok num_retries interval verbose)
    (fun _ _ => False) (fun e _ => e = HTTPError code).
Proof.
  intros Hd Hfits Hreply Hcode Hquiet. prelude device k h.
  rewrite bool_decide_eq_true_2 by (apply elem_of_dom; eauto). cbn [negb when].
  apply (triple_bind _ _ _ (fun _ => ready k h)); [by apply triple_ret|]. intros _.
  apply (triple_bind _ _ _
           (fun fits w => ready k h w
                          /\ fits = ((info_nq info <=? nq d)%Z, nq d, info_nq info)));
    [by apply ready_can_run_experiment|].
  intros fits. apply triple_pure. intros ->.
  replace (info_nq info <=? nq d)%Z with true by (symmetry; apply Z.leb_le; lia).
  cbn [negb when].
  apply (triple_bind _ _ _ (fun _ => ready k h)); [by apply triple_ret|]. intros _.
  apply (triple_bind _ _ _ (fun _ => ready k h)).
  { destruct verbose; [by apply ready_emit | by apply triple_ret]. }
  intros _.
  apply (triple_bind _ _ _ (fun _ _ => False)); [|intros _ w []].
  by apply (run_http_error env info device k h d code body).
Qed.

(** A 4xx or 5xx answer to the submission: [send] prints the two lines of
    its first [except] clause and returns [None]. *)
Lemma send_http_error env info device tok num_retries interval verbose w d code body :
  catalog !! device = Some d ->
  (info_nq info <= nq d)%Z ->
  server env (puts w) = Response code body ->
  (400 <= code < 600)%Z ->
  sigint_in_put env (puts w) = false ->
  exists w1,
    send env info device tok num_retries interval verbose w
    = (logged (reported "- There was an error running your code:" (HTTPError code)) w1,
       Ret None).
Proof.
  intros Hd Hfits Hreply Hcode Hquiet.
  pose proof (send_body_http_error env info device tok num_retries interval verbose
                (puts w) (sigint w) d code body Hd Hfits Hreply Hcode Hquiet w
                (conj eq_refl eq_refl)) as Hbody.
  unfold send, try_except.
  destruct (send_body _ _ _ _ _ _ _ _) as [w1 [res|e]]; [contradiction|].
  subst e. exists w1. cbn [dispatch isinstance].
  unfold report, bind, print, emit, ret, logged, reported.
  cbn [log backends token headers sigint]. by rewrite <- app_assoc.
Qed.

(** A device that the catalog does not list and a job that is too large
    for the device: the exception leaves [send]. *)
Lemma send_offline env info device tok num_retries interval verbose w :
  device ∉ dom catalog ->
  (send env info device tok num_retries interval verbose w).2
  = Raise (DeviceOfflineError "Device is offline.").
Proof.
  intros Hout.
  pose proof (send_body_offline env info device tok num_retries interval verbose
                (puts w) (sigint w) Hout w (conj eq_refl eq_refl)) as Hbody.
  unfold send, try_except.
  destruct (send_body _ _ _ _ _ _ _ _) as [w1 [res|e]]; [contradiction|].
  by subst e.
Qed.

Lemma send_too_small env info device tok num_retries interval verbose w d :
  catalog !! device = Some d ->
  (nq d < info_nq info)%Z ->
  (send env info device tok num_retries interval verbose w).2
  = Raise (DeviceTooSmall "Device is too small.").
Proof.
  intros Hd Hbig.
  pose proof (send_body_too_small env info device tok num_retries interval verbose
                (puts w) (sigint w) d Hd Hbig w (conj eq_refl eq_refl)) as Hbody.
  unfold send, try_except.
  destruct (send_body _ _ _ _ _ _ _ _) as [w1 [res|e]]; [contradiction|].
  by subst e.
Qed.

(** The server queues the job and never finishes it: the timeout of
    [get_result] leaves [send]. *)
Lemma send_timeout :
  (send env_never_done bell_pair "aqt_simulator" (Some "secret") 100 1 false w_start).2
  = Raise (RequestTimeoutError (timeout_msg "job-1")).
Proof. vm_compute. reflexivity. Qed.

Lemma send_server_error :
  send env_server_error bell_pair "aqt_simulator" None 100 1 false w_start
  = (mkWorld catalog (Some "secret")
       (<["SDK" := "ProjectQ"]> (<["Ocp-Apim-Subscription-Key" := "secret"]> ∅))
       (Some default_int_handler)
       [EvGetpass "AQT token > "; EvRefresh;
        EvPut (urljoin _API_URL "sim/") (SubmitArgs "X 0.5 0" (Some "secret") 100 2);
        EvPrint [[Lit "- There was an error running your code:"]];
        EvPrint [[FmtExn (HTTPError 500)]]],
     Ret None).
Proof. vm_compute. reflexivity. Qed.

(** * Further properties *)

(** ** Authentication *)

Lemma authenticate_token_backends env tok w :
  (authenticate env tok w).2 = Ret tt
  /\ token (authenticate env tok w).1 = Some (effective_token env tok)
  /\ backends (authenticate env tok w).1 = backends w.
Proof. destruct tok; repeat split. Qed.

(** X1: [authenticate] stores the token - the one given or, when none is
    given, the one typed at the prompt - in [self.token] and in the
    subscription-key header, sets the SDK header, keeps every other header,
    prompts exactly when no token is given, and leaves the catalog and the
    SIGINT handler alone. *)
Theorem authenticate_stores_token env tok w :
  let t := effective_token env tok in
  let out := authenticate env tok w in
  out.2 = Ret tt
  /\ token out.1 = Some t
  /\ headers out.1 !! "Ocp-Apim-Subscription-Key" = Some t
  /\ headers out.1 !! "SDK" = Some "ProjectQ"
  /\ (forall key, key <> "Ocp-Apim-Subscription-Key" -> key <> "SDK" ->
                  headers out.1 !! key = headers w !! key)
  /\ log out.1
     = (log w ++ match tok with
                 | Some _ => []
                 | None => [EvGetpass "AQT token > "]
                 end)%list
  /\ backends out.1 = backends w
  /\ sigint out.1 = sigint w.
Proof.
  intros t out. subst t out.
  destruct tok as [t|]; cbn.
  - rewrite app_nil_r. repeat split.
    + rewrite lookup_insert_ne by discriminate. apply lookup_insert_eq.
    + apply lookup_insert_eq.
    + intros key Hk Hs. by rewrite !lookup_insert_ne.
  - repeat split.
    + rewrite lookup_insert_ne by discriminate. apply lookup_insert_eq.
    + apply lookup_insert_eq.
    + intros key Hk Hs. by rewrite !lookup_insert_ne.
Qed.

(** X2: authenticating again replaces the credentials: after two calls the
    token and the headers are those that the second call alone gives. *)
Theorem authenticate_again env tok tok' w :
  let w1 := (authenticate env tok w).1 in
  token (authenticate env tok' w1).1 = token (authenticate env tok' w).1
  /\ headers (authenticate env tok' w1).1 = headers (authenticate env tok' w).1.
Proof.
  cbn zeta. destruct tok as [t|], tok' as [t'|]; cbn; split; try reflexivity.
  all: apply map_eq; intros key.
  all: destruct (decide (key = "SDK")) as [->|Hs];
    [by rewrite !lookup_insert_eq|].
  all: rewrite !(lookup_insert_ne _ "SDK") by congruence.
  all: destruct (decide (key = "Ocp-Apim-Subscription-Key")) as [->|Hk];
    [by rewrite !lookup_insert_eq|].
  all: by rewrite !lookup_insert_ne by congruence.
Qed.

(** ** Submission *)

(** Every way through [run] once the device is found. *)
Ltac run_cases env w :=
  unfold put, bind, emit, when, deliver_sigint; cbn [fst snd sigint];
  destruct (sigint_in_put env (puts w));
  [cbn [sigint]; destruct (sigint w) as [[| |? [?|]]|]; cbn [ret]; try reflexivity
  |cbn [ret]];
  (destruct (server env (puts w)) as [|code body]; [reflexivity|]; cbn [ret];
   unfold raise_for_status; cbn [fst snd];
   destruct (is_error_status code); [reflexivity|]; cbn [ret];
   destruct (j_status body) as [st|]; [|reflexivity]; cbn [getitem ret];
   destruct (negb _); [reflexivity|];
   destruct (j_id body); reflexivity).

Lemma run_log env info device w d :
  backends w !! device = Some d ->
  log (run env info device w).1 = (log w ++ [submit_request info d (token w)])%list.
Proof.
  intros Hd. unfold run, bind, get_token, backends_getitem. rewrite Hd.
  run_cases env w.
Qed.

(** X3: [run] looks the device up before it talks to the server.  For a
    name that is not in the catalog it raises [KeyError] and nothing has
    happened; for a device of the catalog it issues exactly one request -
    to the URL of the device, with the circuit, the session token, the shots
    and the qubit count - and changes nothing else, whatever the server
    answers and whether or not SIGINT arrives. *)
Theorem run_one_request env info device w :
  match backends w !! device with
  | None => run env info device w = (w, Raise (KeyError device))
  | Some d => (run env info device w).1 = logged [submit_request info d (token w)] w
  end.
Proof.
  unfold run, bind, get_token, backends_getitem.
  destruct (backends w !! device) as [d|]; [|reflexivity].
  unfold logged. run_cases env w.
Qed.

(** X4: the token given to [authenticate] is the access token of the
    submission that follows, and the token typed at the prompt when none
    is given. *)
Theorem authenticate_then_run env tok info device w d :
  backends w !! device = Some d ->
  log ((authenticate env tok ;; run env info device) w).1
  = (log (authenticate env tok w).1
     ++ [submit_request info d (Some (effective_token env tok))])%list.
Proof.
  intros Hd. unfold bind at 1.
  pose proof (authenticate_token_backends env tok w) as (Hret & Htok & Hb).
  destruct (authenticate env tok w) as [w1 [[]|e]]; [|discriminate].
  cbn [fst snd] in *.
  rewrite (run_log env info device w1 d) by (by rewrite Hb).
  by rewrite Htok.
Qed.

Lemma authenticate_then_run_witness :
  log ((authenticate env_down None ;; run env_down bell_pair "aqt_device") w_ready).1
  = [EvGetpass "AQT token > ";
     submit_request bell_pair (mkDevice 4 "0.0.1" "lint/") (Some "typed")].
Proof.
  apply (authenticate_then_run env_down None bell_pair "aqt_device" w_ready
           (mkDevice 4 "0.0.1" "lint/")).
  reflexivity.
Defined.

(** ** The round that ends a poll *)

Section LastRound.

Variable env : Env.
Variables device execution_id : string.
Variable interval : Z.
Variable retries : nat.
Variable w : World.
Variable d : Device.
Hypothesis Hd : backends w !! device = Some d.
Hypothesis Hput : sigint_in_put env (puts w) = false.

(** A round up to the answer of the server. *)
Ltac answered :=
  unfold poll_once; generalize (retries mod 60 =? 0)%nat; intros check;
  unfold bind, get_token, backends_getitem; rewrite Hd;
  unfold put, bind, emit, when; cbn [fst snd]; rewrite Hput; unfold ret at 1.

Lemma poll_once_transport_error e :
  transport_error (server env (puts w)) = Some e ->
  poll_once env AQT_methods device execution_id interval retries w
  = (logged [poll_request execution_id d (token w)] w, Raise e).
Proof.
  intros He. answered.
  destruct (server env (puts w)) as [|code body]; cbn in He.
  - by injection He as <-.
  - unfold ret at 1. unfold raise_for_status. cbn [fst snd].
    destruct (is_error_status code); [by injection He as <- | discriminate].
Qed.

Lemma poll_once_missing_key key :
  missing_key (server env (puts w)) = Some key ->
  poll_once env AQT_methods device execution_id interval retries w
  = (logged [poll_request execution_id d (token w)] w, Raise (KeyError key)).
Proof.
  intros Hk. answered.
  destruct (server env (puts w)) as [|code [[st|] i [l|]]]; cbn in Hk; try discriminate.
  all: unfold ret at 1; unfold raise_for_status; cbn [fst snd].
  all: destruct (is_error_status code); [discriminate|]; unfold ret at 1.
  all: cbn [getitem j_status j_samples snd].
  - destruct (st =? "finished")%string eqn:Hst; [|discriminate].
    injection Hk as <-. unfold ret at 1. rewrite Hst. reflexivity.
  - by injection Hk as <-.
  - by injection Hk as <-.
Qed.

Lemma poll_once_carries_samples samples :
  carries_samples samples (server env (puts w)) = true ->
  poll_once env AQT_methods device execution_id interval retries w
  = (logged [poll_request execution_id d (token w)] w, Ret (Some samples)).
Proof.
  intros Hs. answered.
  destruct (server env (puts w)) as [|code [[st|] i [l|]]]; cbn in Hs; try discriminate.
  apply andb_true_iff in Hs as [Hc Hl]. apply negb_true_iff in Hc.
  apply bool_decide_eq_true in Hl. subst l.
  unfold ret at 1. unfold raise_for_status. cbn [fst snd]. rewrite Hc.
  unfold ret at 1. cbn [getitem j_status j_samples snd]. unfold ret at 1.
  rewrite orb_true_r. reflexivity.
Qed.

End LastRound.

(** After [k] rounds that find the job running, a round that does not fall
    through decides the call. *)
Lemma get_result_decided env device execution_id num_retries interval verbose w k r :
  quiet env ->
  (0 <= interval)%Z ->
  device ∈ dom (backends w) ->
  device ∈ dom catalog ->
  (forall i, i < k -> is_running (server env (puts w + i)) = true) ->
  (Z.of_nat k < num_retries)%Z ->
  r <> Ret None ->
  (forall w1 d,
      puts w1 = puts w + k ->
      backends w1 !! device = Some d ->
      poll_once env AQT_methods device execution_id interval k w1
      = (logged [poll_request execution_id d (token w1)] w1, r)) ->
  let out := get_result env device execution_id num_retries interval verbose w in
  out.2 = after_loop execution_id r /\ puts out.1 = puts w + k + 1.
Proof.
  intros Hquiet Hint Hdev Hcat Hrun Hbudget Hr Hround out. subst out.
  unfold get_result.
  destruct (get_result_with_prefix env AQT_methods (fun _ => catalog) device
              execution_id num_retries interval verbose w k
              AQT_follows_portal Hquiet Hint Hdev Hrun)
    as (w1 & Hputs & _ & Hdev1 & Hdecide); [auto | lia |].
  destruct (proj1 (elem_of_dom _ _) Hdev1) as [d Hd].
  rewrite (Hdecide _ _ (Hround w1 d Hputs Hd) Hr).
  cbn [fst snd]. split; [reflexivity|].
  rewrite puts_restored, puts_logged, Hputs. reflexivity.
Qed.

(** X5: a response that carries samples ends the poll with these samples
    whatever its status says - "running" or an error status included. *)
Theorem get_result_samples_whatever_status env device execution_id num_retries
    interval verbose w k samples :
  quiet env ->
  (0 <= interval)%Z ->
  device ∈ dom (backends w) ->
  device ∈ dom catalog ->
  (forall i, i < k -> is_running (server env (puts w + i)) = true) ->
  carries_samples samples (server env (puts w + k)) = true ->
  (Z.of_nat k < num_retries)%Z ->
  let out := get_result env device execution_id num_retries interval verbose w in
  out.2 = Ret samples /\ puts out.1 = puts w + k + 1.
Proof.
  intros Hquiet Hint Hdev Hcat Hrun Hs Hbudget.
  apply (get_result_decided env device execution_id num_retries interval verbose w k
           (Ret (Some samples)) Hquiet Hint Hdev Hcat Hrun Hbudget); [discriminate|].
  intros w1 d Hputs Hd. apply poll_once_carries_samples; [exact Hd | apply Hquiet |].
  by rewrite Hputs.
Qed.

Lemma get_result_samples_whatever_status_witness :
  let out := get_result (env_then (Response 200 (mkJson (Some "running") None (Some [0; 1])%Z)))
               "aqt_simulator" "job" 10 1 false w_ready in
  out.2 = Ret [0; 1]%Z /\ puts out.1 = 2.
Proof.
  apply (get_result_samples_whatever_status
           (env_then (Response 200 (mkJson (Some "running") None (Some [0; 1])%Z)))
           "aqt_simulator" "job" 10 1 false w_ready 1 [0; 1]%Z).
  - intros k. split; reflexivity.
  - lia.
  - apply elem_of_dom. eexists. reflexivity.
  - apply elem_of_dom. eexists. reflexivity.
  - intros i Hi. assert (i = 0) as -> by lia. reflexivity.
  - reflexivity.
  - lia.
Defined.

(** X6: a malformed response is not polled again: a response without
    "status" (even one that carries samples), and a "finished" response
    without "samples", make [get_result] raise [KeyError] for the missing
    key at once. *)
Theorem get_result_missing_key env device execution_id num_retries interval verbose
    w k key :
  quiet env ->
  (0 <= interval)%Z ->
  device ∈ dom (backends w) ->
  device ∈ dom catalog ->
  (forall i, i < k -> is_running (server env (puts w + i)) = true) ->
  missing_key (server env (puts w + k)) = Some key ->
  (Z.of_nat k < num_retries)%Z ->
  let out := get_result env device execution_id num_retries interval verbose w in
  out.2 = Raise (KeyError key) /\ puts out.1 = puts w + k + 1.
Proof.
  intros Hquiet Hint Hdev Hcat Hrun Hk Hbudget.
  apply (get_result_decided env device execution_id num_retries interval verbose w k
           (Raise (KeyError key)) Hquiet Hint Hdev Hcat Hrun Hbudget); [discriminate|].
  intros w1 d Hputs Hd. apply poll_once_missing_key; [exact Hd | apply Hquiet |].
  by rewrite Hputs.
Qed.

Lemma get_result_missing_key_witness :
  let out := get_result (env_then (Response 200 (mkJson None None (Some [0; 1])%Z)))
               "aqt_simulator" "job" 10 1 false w_ready in
  out.2 = Raise (KeyError "status") /\ puts out.1 = 2.
Proof.
  apply (get_result_missing_key
           (env_then (Response 200 (mkJson None None (Some [0; 1])%Z)))
           "aqt_simulator" "job" 10 1 false w_ready 1 "status").
  - intros k. split; reflexivity.
  - lia.
  - apply elem_of_dom. eexists. reflexivity.
  - apply elem_of_dom. eexists. reflexivity.
  - intros i Hi. assert (i = 0) as -> by lia. reflexivity.
  - reflexivity.
  - lia.
Defined.

(** X7: the poll does not retry a failed request: a request that gets no
    response, or a 4xx/5xx response, makes [get_result] raise the error of
    [requests] at once, however many attempts are left. *)
Theorem get_result_transport_error env device execution_id num_retries interval
    verbose w k e :
  quiet env ->
  (0 <= interval)%Z ->
  device ∈ dom (backends w) ->
  device ∈ dom catalog ->
  (forall i, i < k -> is_running (server env (puts w + i)) = true) ->
  transport_error (server env (puts w + k)) = Some e ->
  (Z.of_nat k < num_retries)%Z ->
  let out := get_result env device execution_id num_retries interval verbose w in
  out.2 = Raise e /\ puts out.1 = puts w + k + 1.
Proof.
  intros Hquiet Hint Hdev Hcat Hrun He Hbudget.
  apply (get_result_decided env device execution_id num_retries interval verbose w k
           (Raise e) Hquiet Hint Hdev Hcat Hrun Hbudget); [discriminate|].
  intros w1 d Hputs Hd. apply poll_once_transport_error; [exact Hd | apply Hquiet |].
  by rewrite Hputs.
Qed.

Lemma get_result_transport_error_witness :
  let out := get_result (env_then (Response 503 (mkJson None None None)))
               "aqt_simulator" "job" 3000 1 false w_ready in
  out.2 = Raise (HTTPError 503) /\ puts out.1 = 2.
Proof.
  apply (get_result_transport_error (env_then (Response 503 (mkJson None None None)))
           "aqt_simulator" "job" 3000 1 false w_ready 1 (HTTPError 503)).
  - intros k. split; reflexivity.
  - lia.
  - apply elem_of_dom. eexists. reflexivity.
  - apply elem_of_dom. eexists. reflexivity.
  - intros i Hi. assert (i = 0) as -> by lia. reflexivity.
  - reflexivity.
  - lia.
Defined.

(** ** The ends of the loop *)

(** X8: for a device that the session's catalog does not hold,
    [get_result] raises [KeyError] in its first round, before any request
    is issued. *)
Theorem get_result_unknown_device env device execution_id num_retries interval
    verbose w :
  backends w !! device = None ->
  (0 < num_retries)%Z ->
  let out := get_result env device execution_id num_retries interval verbose w in
  out.2 = Raise (KeyError device) /\ puts out.1 = puts w.
Proof.
  intros Hnone Hpos out. subst out. unfold get_result.
  erewrite get_result_with_eq; cycle 1.
  { unfold range. destruct (Z.to_nat num_retries) as [|n] eqn:Hn; [lia|].
    cbn [seq for_each]. unfold bind at 1.
    unfold poll_once, bind, get_token, backends_getitem.
    change (backends (loop_entry execution_id verbose w)) with (backends w).
    rewrite Hnone. reflexivity. }
  cbn [fst snd after_loop]. by rewrite puts_restored, puts_loop_entry.
Qed.

Lemma get_result_unknown_device_witness :
  let out := get_result env_running "aqt_simulator" "job" 3000 1 false w_fresh in
  out.2 = Raise (KeyError "aqt_simulator") /\ puts out.1 = 0.
Proof.
  apply (get_result_unknown_device env_running "aqt_simulator" "job" 3000 1 false w_fresh).
  - reflexivity.
  - lia.
Defined.



Lemma checks_none m : forall a, 0 < a -> a + m <= 60 -> checks a m = 0.
Proof.
  induction m as [|m IH]; intros a Ha Hm; [reflexivity|].
  rewrite checks_S, IH by lia.
  rewrite Nat.mod_small by lia.
  destruct a; [lia | reflexivity].
Qed.

Lemma checks_shift_multiple q : forall a m, checks (60 * q + a) m = checks a m.
Proof.
  induction q as [|q IH]; intros a m; [reflexivity|].
  replace (60 * S q + a) with (60 + (60 * q + a)) by lia.
  by rewrite checks_shift.
Qed.

Lemma checks_ceiling n : checks 0 n = (n + 59) / 60.
Proof.
  pose proof (Nat.div_mod_eq n 60) as Hn.
  pose proof (Nat.mod_upper_bound n 60 ltac:(lia)) as Hr.
  set (q := n / 60) in *. set (r := n mod 60) in *.
  rewrite Hn, checks_app, checks_multiple.
  replace (0 + 60 * q) with (60 * q + 0) by lia. rewrite checks_shift_multiple.
  destruct r as [|r].
  - replace (60 * q + 0 + 59) with (59 + q * 60) by lia.
    rewrite Nat.div_add, Nat.div_small by lia.
    unfold checks. cbn [seq List.filter length]. lia.
  - rewrite checks_S, checks_none by lia.
    replace (60 * q + S r + 59) with (r + (q + 1) * 60) by lia.
    rewrite Nat.div_add, Nat.div_small by lia. cbn. lia.
Qed.

(** X10: while the job stays "running", [get_result] uses up its budget:
    it issues exactly [num_retries] requests, refreshes the catalog once
    every 60 rounds starting with the first - [ceil(num_retries / 60)] times
    in all - and then raises [RequestTimeoutError]. *)
Theorem get_result_uses_up_budget env device execution_id num_retries interval
    verbose w :
  quiet env ->
  (0 <= interval)%Z ->
  device ∈ dom (backends w) ->
  device ∈ dom catalog ->
  (forall i, i < Z.to_nat num_retries -> is_running (server env (puts w + i)) = true) ->
  let out := get_result env device execution_id num_retries interval verbose w in
  out.2 = Raise (RequestTimeoutError (timeout_msg execution_id))
  /\ puts out.1 = puts w + Z.to_nat num_retries
  /\ refreshes out.1 = refreshes w + (Z.to_nat num_retries + 59) / 60.
Proof.
  intros Hquiet Hint Hdev Hcat Hrun. rewrite <- checks_ceiling.
  apply (get_result_with_all_running env AQT_methods (fun _ => catalog) device
           execution_id num_retries interval verbose w
           AQT_follows_portal Hquiet Hint Hdev Hrun).
  auto.
Qed.

Lemma get_result_uses_up_budget_witness :
  let out := get_result env_running "aqt_device" "job" 100 1 false w_ready in
  out.2 = Raise (RequestTimeoutError (timeout_msg "job"))
  /\ puts out.1 = 100
  /\ refreshes out.1 = 2.
Proof.
  apply (get_result_uses_up_budget env_running "aqt_device" "job" 100 1 false w_ready).
  - intros k. split; reflexivity.
  - lia.
  - apply elem_of_dom. eexists. reflexivity.
  - apply elem_of_dom. eexists. reflexivity.
  - intros i Hi. reflexivity.
Defined.

(** ** What a poll sends *)

Section Polled.

Variable env : Env.
Variables device execution_id : string.
Variable interval : Z.
Variable l0 : list Event.
Variable tk : option string.

Let ok := poll_event_ok execution_id tk interval.
Let P := polled l0 tk ok.

Lemma polled_mono n m w : n <= m -> P n w -> P m w.
Proof.
  intros Hnm (Htk & es & Hlog & Hok & Hn). split; [exact Htk|].
  exists es. repeat split; [exact Hlog | exact Hok | lia].
Qed.

Lemma polled_emit n e :
  ok e = true ->
  triple (P n) (emit e) (fun _ => P (n + if is_put e then 1 else 0)) (fun _ => P (S n)).
Proof.
  intros He w (Htk & es & Hlog & Hok & Hn). split; [exact Htk|].
  exists (es ++ [e])%list. cbn [emit fst log]. repeat split.
  - by rewrite Hlog, <- app_assoc.
  - rewrite forallb_app, Hok. cbn. by rewrite He.
  - rewrite count_app. unfold count at 2. cbn [List.filter].
    destruct (is_put e); cbn [length]; lia.
Qed.

(** A computation that leaves the world as it is. *)
Lemma polled_still {A} n (c : M A) :
  (forall w, (c w).1 = w) -> triple (P n) c (fun _ => P n) (fun _ => P (S n)).
Proof.
  intros Hc w Hw. specialize (Hc w). destruct (c w) as [w' [a|e]]; cbn in Hc; subst w'.
  - exact Hw.
  - apply (polled_mono n); [lia | assumption].
Qed.

Lemma polled_deliver_sigint n : triple (P n) deliver_sigint (fun _ => P n) (fun _ => P n).
Proof.
  intros w Hw. unfold deliver_sigint.
  destruct (sigint w) as [[| |name [e|]]|]; exact Hw.
Qed.

Lemma polled_put n target data :
  ok (EvPut target data) = true ->
  triple (P n) (put env target data) (fun _ => P (S n)) (fun _ => P (S n)).
Proof.
  intros Hok w Hw. unfold put.
  apply (triple_bind (P n) _ _ (fun _ => P (S n))); [| |exact Hw].
  - intros w0 Hw0. pose proof (polled_emit n _ Hok w0 Hw0) as H.
    cbn [is_put] in H. by rewrite Nat.add_1_r in H.
  - intros _. apply (triple_bind _ _ _ (fun _ => P (S n))).
    + destruct (sigint_in_put env (puts w)); cbn [when];
        [apply polled_deliver_sigint | by apply triple_ret].
    + intros _. destruct (server env (puts w)); [by apply triple_raise | by apply triple_ret].
Qed.

Lemma polled_update_devices_list n :
  triple (P n) (update_devices_list false) (fun _ => P n) (fun _ => P (S n)).
Proof.
  intros w (Htk & es & Hlog & Hok & Hn). rewrite update_devices_list_eq.
  split; [exact Htk|]. exists (es ++ [EvRefresh])%list.
  rewrite logged_nil. cbn [with_backends logged log]. repeat split.
  - by rewrite Hlog, <- app_assoc.
  - rewrite forallb_app, Hok. reflexivity.
  - rewrite count_app. unfold count at 2. cbn. lia.
Qed.

Lemma polled_poll_once n retries :
  triple (P n) (poll_once env AQT_methods device execution_id interval retries)
    (fun _ => P (S n)) (fun _ => P (S n)).
Proof.
  unfold poll_once.
  apply (triple_bind _ _ _ (fun t w => P n w /\ t = tk)).
  { intros w Hw. split; [exact Hw | exact (proj1 Hw)]. }
  intros t. apply triple_pure. intros ->.
  apply (triple_bind _ _ _ (fun _ => P n)).
  { apply polled_still. intros w. unfold backends_getitem. by destruct (_ !! _). }
  intros d.
  apply (triple_bind _ _ _ (fun _ => P (S n))).
  { apply polled_put. by apply bool_decide_eq_true_2. }
  intros req.
  assert (Hstill : forall A (c : M A), (forall w, (c w).1 = w) ->
            triple (P (S n)) c (fun _ => P (S n)) (fun _ => P (S n))).
  { intros A c Hc w Hw. specialize (Hc w).
    destruct (c w) as [w' [a|e]]; cbn in Hc; subst w'; exact Hw. }
  apply (triple_bind _ _ _ (fun _ => P (S n))).
  { apply Hstill. intros w. unfold raise_for_status. by destruct (is_error_status _). }
  intros _.
  apply (triple_bind _ _ _ (fun _ => P (S n))).
  { apply Hstill. intros w. by destruct (j_status _). }
  intros st. destruct (_ || _).
  { apply (triple_bind _ _ _ (fun _ => P (S n))).
    - apply Hstill. intros w. by destruct (j_samples _).
    - intros s. by apply triple_ret. }
  destruct (negb _); [by apply triple_raise|].
  assert (Hsleep : triple (P (S n)) (sleep env interval)
                     (fun _ => P (S n)) (fun _ => P (S n))).
  { intros w Hw. unfold sleep. destruct (interval <? 0)%Z; [exact Hw|].
    apply (triple_bind (P (S n)) _ _ (fun _ => P (S n))); [| |exact Hw].
    - intros w0 Hw0.
      assert (Hok : ok (EvSleep interval) = true) by (by apply bool_decide_eq_true_2).
      pose proof (polled_emit (S n) _ Hok w0 Hw0) as H.
      cbn [is_put] in H. by rewrite Nat.add_0_r in H.
    - intros _. destruct (sigint_in_sleep env (sleeps w)); cbn [when];
        [apply polled_deliver_sigint | by apply triple_ret]. }
  apply (triple_bind _ _ _ (fun _ => P (S n))); [exact Hsleep|]. intros _.
  apply (triple_bind _ _ _ (fun _ => P (S n))).
  { apply Hstill. reflexivity. }
  intros online. destruct (online && _); [|by apply triple_ret].
  apply (triple_bind _ _ _ (fun _ => P (S n))).
  { intros w Hw. pose proof (polled_update_devices_list (S n) w Hw) as H.
    change (self_update_devices_list AQT_methods false w)
      with (update_devices_list false w).
    rewrite update_devices_list_eq in *. exact H. }
  intros _.
  apply (triple_bind _ _ _ (fun _ => P (S n))).
  { apply Hstill. reflexivity. }
  intros still. destruct (negb still); [by apply triple_raise | by apply triple_ret].
Qed.

Lemma polled_loop xs : forall n,
  triple (P n) (for_each xs (poll_once env AQT_methods device execution_id interval))
    (fun _ => P (n + length xs)) (fun _ => P (n + length xs)).
Proof.
  induction xs as [|x xs IH]; intros n; cbn [for_each length].
  - apply triple_ret. intros w Hw. by rewrite Nat.add_0_r.
  - apply (triple_bind _ _ _ (fun _ => P (S n))).
    + intros w Hw. pose proof (polled_poll_once n x w Hw) as H.
      destruct (poll_once _ _ _ _ _ _ _) as [w' [r|e]]; [exact H|].
      apply (polled_mono (S n)); [lia | exact H].
    + intros [v|].
      * apply triple_ret. intros w Hw. apply (polled_mono (S n)); [lia | exact Hw].
      * replace (n + S (length xs)) with (S n + length xs) by lia. apply IH.
Qed.

End Polled.

(** Whatever the server answers and whenever SIGINT arrives. *)
Lemma get_result_polled env device execution_id num_retries interval verbose w :
  polled (log w) (token w) (poll_event_ok execution_id (token w) interval)
    (Z.to_nat num_retries)
    (get_result env device execution_id num_retries interval verbose w).1.
Proof.
  unfold get_result.
  assert (Hentry : polled (log w) (token w)
                     (poll_event_ok execution_id (token w) interval) 0
                     (loop_entry execution_id verbose w)).
  { split; [reflexivity|]. eexists. split; [reflexivity|].
    destruct verbose; split; cbn; auto. }
  pose proof (polled_loop env device execution_id interval (log w) (token w)
                (range num_retries) 0 _ Hentry) as Hloop.
  destruct (for_each _ _ _) as [w' r] eqn:Heq.
  rewrite (get_result_with_eq _ _ _ _ _ _ _ _ _ _ Heq). cbn [fst].
  assert (Hw' : polled (log w) (token w)
                  (poll_event_ok execution_id (token w) interval)
                  (Z.to_nat num_retries) w').
  { unfold range in Hloop. rewrite length_seq in Hloop. by destruct r. }
  by destruct (sigint w).
Qed.

(** X11: [get_result] never issues more than [num_retries] requests,
    whatever the server answers and whenever SIGINT arrives. *)
Theorem get_result_request_bound env device execution_id num_retries interval verbose w :
  puts (get_result env device execution_id num_retries interval verbose w).1
  <= puts w + Z.to_nat num_retries.
Proof.
  destruct (get_result_polled env device execution_id num_retries interval verbose w)
    as (_ & es & Hlog & _ & Hn).
  unfold puts. rewrite Hlog, count_app. lia.
Qed.

(** X12: [get_result] keeps the token of the session, and all it adds to
    the log are poll requests to the API that carry its execution id and
    that token, sleeps of [interval] seconds, printed lines and refreshes:
    it never submits a job and never prompts. *)
Theorem get_result_only_polls env device execution_id num_retries interval verbose w :
  let out := get_result env device execution_id num_retries interval verbose w in
  token out.1 = token w
  /\ exists es,
       log out.1 = (log w ++ es)%list
       /\ forallb (poll_event_ok execution_id (token w) interval) es = true.
Proof.
  destruct (get_result_polled env device execution_id num_retries interval verbose w)
    as (Htk & es & Hlog & Hok & _).
  split; [exact Htk|]. by exists es.
Qed.

(** ** Retrieving a job *)

Lemma retrieve_eq env device tok jobid num_retries interval verbose w :
  retrieve env device tok jobid num_retries interval verbose w
  = get_result env device jobid num_retries interval verbose
      (retrieve_session env tok verbose w).
Proof.
  unfold retrieve, retrieve_session.
  set (w1 := (AQT_init w).1).
  set (w2 := (authenticate env tok w1).1).
  set (w3 := (update_devices_list verbose w2).1).
  assert (H1 : AQT_init w = (w1, Ret tt)) by reflexivity.
  assert (H2 : authenticate env tok w1 = (w2, Ret tt)) by (by destruct tok).
  assert (H3 : update_devices_list verbose w2 = (w3, Ret tt)).
  { subst w3. by rewrite update_devices_list_eq. }
  unfold bind. rewrite H1, H2, H3.
  by destruct (get_result _ _ _ _ _ _ _) as [w4 [res|e]].
Qed.

Lemma retrieve_session_facts env tok verbose w :
  backends (retrieve_session env tok verbose w) = catalog
  /\ token (retrieve_session env tok verbose w) = Some (effective_token env tok)
  /\ puts (retrieve_session env tok verbose w) = puts w
  /\ sigint (retrieve_session env tok verbose w) = sigint w.
Proof.
  unfold retrieve_session. rewrite update_devices_list_eq. cbn [fst].
  assert (Hu : untouched (puts w) (sigint w) (authenticate env tok (AQT_init w).1).1).
  { pose proof (untouched_authenticate env (puts w) (sigint w) (fun _ _ => True) tok
                  (AQT_init w).1 (conj eq_refl eq_refl)) as H.
    pose proof (authenticate_token_backends env tok (AQT_init w).1) as (Hret & _).
    destruct (authenticate env tok (AQT_init w).1) as [w2 [[]|e]];
      [exact H | discriminate]. }
  destruct Hu as [Hputs Hsig]. repeat split.
  - by destruct tok.
  - rewrite puts_logged, puts_with_backends, puts_logged, Hputs.
    destruct verbose; unfold count; cbn [List.filter is_put length]; lia.
  - exact Hsig.
Qed.

(** The loop when the device is not in the catalog of the session. *)
Lemma loop_unknown_device env device execution_id interval xs w :
  backends w !! device = None ->
  for_each xs (poll_once env AQT_methods device execution_id interval) w
  = (w, match xs with [] => Ret None | _ :: _ => Raise (KeyError device) end).
Proof.
  intros Hnone. destruct xs as [|x xs]; [reflexivity|].
  cbn [for_each]. unfold bind at 1.
  unfold poll_once, bind, get_token, backends_getitem. by rewrite Hnone.
Qed.

(** With the catalog just refreshed, a poll cannot find the device gone. *)
Lemma get_result_refreshed_not_offline env device execution_id num_retries interval
    verbose w :
  backends w = catalog ->
  is_offline_error
    match (get_result env device execution_id num_retries interval verbose w).2 with
    | Raise e => e
    | Ret _ => KeyboardInterrupt
    end = false.
Proof.
  intros Hb. unfold get_result.
  destruct (decide (device ∈ dom catalog)) as [Hin|Hout].
  - pose proof (handler_loop env device execution_id interval (range num_retries)
                  (loop_entry execution_id verbose w)
                  (handler_installed_loop_entry _ _ _)) as Hloop.
    destruct (for_each _ _ _) as [w' r] eqn:Heq.
    rewrite (get_result_with_eq _ _ _ _ _ _ _ _ _ _ Heq). cbn [snd].
    destruct r as [[s|]|e]; cbn [after_loop]; try reflexivity.
    exact (proj2 Hloop Hin).
  - erewrite get_result_with_eq; cycle 1.
    { apply loop_unknown_device.
      change (backends (loop_entry execution_id verbose w)) with (backends w).
      rewrite Hb. by apply not_elem_of_dom. }
    cbn [snd]. by destruct (range num_retries).
Qed.

(** X13: [retrieve] never raises [DeviceOfflineError], for any device name,
    any server and any arrival of SIGINT: it refreshes the catalog itself and
    does not test the device before it polls. *)
Theorem retrieve_never_offline env device tok jobid num_retries interval verbose w msg :
  (retrieve env device tok jobid num_retries interval verbose w).2
  <> Raise (DeviceOfflineError msg).
Proof.
  rewrite retrieve_eq.
  pose proof (get_result_refreshed_not_offline env device jobid num_retries interval
                verbose (retrieve_session env tok verbose w)
                (proj1 (retrieve_session_facts env tok verbose w))) as H.
  intros Heq. rewrite Heq in H. discriminate.
Qed.

(** X14: for a device that the catalog does not list, [retrieve] raises
    [KeyError] (not [DeviceOfflineError], as [send] does) before any request
    is issued. *)
Theorem retrieve_unknown_device env device tok jobid num_retries interval verbose w :
  ~ In device device_names ->
  (0 < num_retries)%Z ->
  let out := retrieve env device tok jobid num_retries interval verbose w in
  out.2 = Raise (KeyError device) /\ puts out.1 = puts w.
Proof.
  intros Hout Hpos out. subst out. rewrite retrieve_eq. unfold get_result.
  destruct (retrieve_session_facts env tok verbose w) as (Hb & _ & Hputs & _).
  erewrite get_result_with_eq; cycle 1.
  { apply loop_unknown_device.
    change (backends (loop_entry jobid verbose (retrieve_session env tok verbose w)))
      with (backends (retrieve_session env tok verbose w)).
    rewrite Hb. apply not_elem_of_dom. by rewrite <- catalog_names. }
  cbn [fst snd]. rewrite puts_restored, puts_loop_entry, Hputs.
  unfold range. destruct (Z.to_nat num_retries) eqn:Hn; [lia|]. by split.
Qed.

Lemma retrieve_unknown_device_witness :
  let out := retrieve env_running "aqt_ghost" (Some "secret") "job" 3000 1 false w_stale in
  out.2 = Raise (KeyError "aqt_ghost") /\ puts out.1 = 0.
Proof.
  apply (retrieve_unknown_device env_running "aqt_ghost" (Some "secret") "job" 3000 1
           false w_stale).
  - cbn. intros [H|[H|[H|[]]]]; discriminate.
  - lia.
Defined.

(** X15: [retrieve] polls for the job id it is given with the token it is
    given (or the one typed at its prompt), whatever session state was there
    before, and it never submits a job. *)
Theorem retrieve_only_polls env device tok jobid num_retries interval verbose w :
  let out := retrieve env device tok jobid num_retries interval verbose w in
  exists es,
    log out.1 = (log (retrieve_session env tok verbose w) ++ es)%list
    /\ forallb (poll_event_ok jobid (Some (effective_token env tok)) interval) es = true.
Proof.
  cbn zeta. rewrite retrieve_eq.
  destruct (retrieve_session_facts env tok verbose w) as (_ & Htk & _).
  destruct (get_result_polled env device jobid num_retries interval verbose
              (retrieve_session env tok verbose w)) as (_ & es & Hlog & Hok & _).
  rewrite Htk in Hok. by exists es.
Qed.

(** ** Sending a job *)

Section Send.

Variable env : Env.
Variable info : Info.
Variable device : string.
Variable k : nat.
Variable h : option Handler.

(** The steps of [send_body] between the liveness test and the submission,
    for a device that is listed and large enough. *)
Ltac listed_and_fits d Hd Hfits :=
  rewrite bool_decide_eq_true_2 by (apply elem_of_dom; eauto); cbn [negb when];
  apply (triple_bind _ _ _ (fun _ => ready k h)); [by apply triple_ret|]; intros _;
  apply (triple_bind _ _ _
           (fun fits w => ready k h w
                          /\ fits = ((info_nq info <=? nq d)%Z, nq d, info_nq info)));
    [by apply ready_can_run_experiment|];
  intros fits; apply triple_pure; intros ->;
  replace (info_nq info <=? nq d)%Z with true by (symmetry; apply Z.leb_le; exact Hfits);
  cbn [negb when];
  apply (triple_bind _ _ _ (fun _ => ready k h)); [by apply triple_ret|]; intros _;
  apply (triple_bind _ _ _ (fun _ => ready k h));
    [match goal with |- context [when ?v _] =>
       destruct v end; [by apply ready_emit | by apply triple_ret]|];
  intros _.

Lemma run_fails d e :
  catalog !! device = Some d ->
  sigint_in_put env k = false ->
  submission_error (server env k) = Some e ->
  triple (ready k h) (run env info device)
    (fun _ _ => False) (fun e' w => e' = e /\ puts w = S k).
Proof.
  intros Hd Hquiet He w [[Hk Hh] Hb].
  assert (Hputs : puts (logged [submit_request info d (token w)] w) = S k).
  { rewrite puts_logged, Hk. unfold count. cbn. lia. }
  unfold run, bind, get_token, backends_getitem. rewrite Hb, Hd.
  unfold put, bind, emit, when. cbn [fst snd]. rewrite Hk, Hquiet. cbn [ret].
  unfold submission_error in He.
  destruct (server env k) as [|code body].
  { injection He as <-. by split. }
  cbn [ret]. unfold raise_for_status. cbn [fst snd].
  destruct (is_error_status code).
  { injection He as <-. by split. }
  cbn [ret]. destruct (j_status body) as [st|]; cbn [getitem ret].
  2:{ injection He as <-. by split. }
  destruct (st =? "queued")%string; cbn [negb].
  2:{ injection He as <-. by split. }
  destruct (j_id body); [discriminate|]. injection He as <-. by split.
Qed.

Lemma run_queues d execution_id :
  catalog !! device = Some d ->
  sigint_in_put env k = false ->
  is_queued_as execution_id (server env k) = true ->
  triple (ready k h) (run env info device)
    (fun i w => i = execution_id /\ ready (S k) h w) (fun _ _ => False).
Proof.
  intros Hd Hquiet Hq w [[Hk Hh] Hb].
  assert (Hputs : puts (logged [submit_request info d (token w)] w) = S k).
  { rewrite puts_logged, Hk. unfold count. cbn. lia. }
  unfold run, bind, get_token, backends_getitem. rewrite Hb, Hd.
  unfold put, bind, emit, when. cbn [fst snd]. rewrite Hk, Hquiet. cbn [ret].
  destruct (server env k) as [|code [[st|] [i|] s]]; cbn in Hq; try discriminate.
  apply andb_true_iff in Hq as [[Hc Hs]%andb_true_iff Hi].
  apply negb_true_iff in Hc. apply String.eqb_eq in Hi. subst i.
  cbn [ret]. unfold raise_for_status. cbn [fst snd]. rewrite Hc.
  cbn [ret getitem j_status j_id snd]. rewrite Hs. cbn [negb ret].
  repeat split; assumption.
Qed.

Lemma run_not_offline d :
  catalog !! device = Some d ->
  sigint_in_put env k = false ->
  triple (ready k h) (run env info device)
    (fun _ w => backends w = catalog) (fun e _ => is_offline_error e = false).
Proof.
  intros Hd Hquiet w [[Hk Hh] Hb].
  unfold run, bind, get_token, backends_getitem. rewrite Hb, Hd.
  unfold put, bind, emit, when. cbn [fst snd]. rewrite Hk, Hquiet. cbn [ret].
  destruct (server env k) as [|code body]; [reflexivity|].
  cbn [ret]. unfold raise_for_status. cbn [fst snd].
  destruct (is_error_status code); [reflexivity|].
  cbn [ret]. destruct (j_status body) as [st|]; cbn [getitem ret]; [|reflexivity].
  destruct (negb _); [reflexivity|].
  destruct (j_id body); [exact Hb | reflexivity].
Qed.

Lemma send_body_submission_fails tok num_retries interval verbose d e :
  catalog !! device = Some d ->
  (info_nq info <= nq d)%Z ->
  sigint_in_put env k = false ->
  submission_error (server env k) = Some e ->
  triple (untouched k h) (send_body env info device tok num_retries interval verbose)
    (fun _ _ => False) (fun e' w => e' = e /\ puts w = S k).
Proof.
  intros Hd Hfits Hquiet He. prelude device k h. listed_and_fits d Hd Hfits.
  apply (triple_bind _ _ _ (fun _ _ => False)); [|intros _ w []].
  by apply (run_fails d e).
Qed.

Lemma send_body_turned_away tok num_retries interval verbose :
  accepts info device = false ->
  triple (untouched k h) (send_body env info device tok num_retries interval verbose)
    (fun _ _ => False)
    (fun e w => puts w = k
                /\ e = match catalog !! device with
                       | None => DeviceOfflineError "Device is offline."
                       | Some _ => DeviceTooSmall "Device is too small."
                       end).
Proof.
  intros Hno. unfold accepts in Hno. prelude device k h.
  destruct (catalog !! device) as [d|] eqn:Hd.
  - rewrite bool_decide_eq_true_2 by (apply elem_of_dom; eauto). cbn [negb when].
    apply (triple_bind _ _ _ (fun _ => ready k h)); [by apply triple_ret|]. intros _.
    apply (triple_bind _ _ _
             (fun fits w => ready k h w
                            /\ fits = ((info_nq info <=? nq d)%Z, nq d, info_nq info)));
      [by apply ready_can_run_experiment|].
    intros fits. apply triple_pure. intros ->. rewrite Hno. cbn [negb when].
    apply (triple_bind _ _ _ (fun _ _ => False)); [|intros _ w []].
    apply (triple_bind _ _ _ (fun _ => ready k h)); [by apply ready_emit|].
    intros _. apply triple_raise. intros w Hw. split; [exact (proj1 (proj1 Hw)) | reflexivity].
  - rewrite bool_decide_eq_false_2 by (by apply not_elem_of_dom). cbn [negb when].
    apply (triple_bind _ _ _ (fun _ _ => False)); [|intros _ w []].
    apply (triple_bind _ _ _ (fun _ => ready k h)); [by apply ready_emit|].
    intros _. apply triple_raise. intros w Hw. split; [exact (proj1 (proj1 Hw)) | reflexivity].
Qed.

Lemma send_body_listed_not_offline tok num_retries interval verbose d :
  catalog !! device = Some d ->
  sigint_in_put env k = false ->
  triple (untouched k h) (send_body env info device tok num_retries interval verbose)
    (fun _ _ => True) (fun e _ => is_offline_error e = false).
Proof.
  intros Hd Hquiet. prelude device k h.
  rewrite bool_decide_eq_true_2 by (apply elem_of_dom; eauto). cbn [negb when].
  apply (triple_bind _ _ _ (fun _ => ready k h)); [by apply triple_ret|]. intros _.
  apply (triple_bind _ _ _
           (fun fits w => ready k h w
                          /\ fits = ((info_nq info <=? nq d)%Z, nq d, info_nq info)));
    [by apply ready_can_run_experiment|].
  intros fits. apply triple_pure. intros ->.
  destruct (info_nq info <=? nq d)%Z; cbn [negb when].
  2:{ apply (triple_bind _ _ _ (fun _ _ => False)); [|intros _ w []].
      apply (triple_bind _ _ _ (fun _ => ready k h)); [by apply ready_emit|].
      intros _. by apply triple_raise. }
  apply (triple_bind _ _ _ (fun _ => ready k h)); [by apply triple_ret|]. intros _.
  apply (triple_bind _ _ _ (fun _ => ready k h)).
  { destruct verbose; [by apply ready_emit | by apply triple_ret]. }
  intros _.
  apply (triple_bind _ _ _ (fun _ w => backends w = catalog));
    [by apply (run_not_offline d)|].
  intros execution_id.
  apply (triple_bind _ _ _ (fun _ w => backends w = catalog)).
  { destruct verbose; [|by apply triple_ret]. intros w Hw. exact Hw. }
  intros _.
  apply (triple_bind _ _ _ (fun _ _ => True)).
  { intros w Hw.
    pose proof (get_result_refreshed_not_offline env device execution_id num_retries
                  interval verbose w Hw) as H.
    by destruct (get_result _ _ _ _ _ _ _) as [w' [res|e]]. }
  intros res.
  apply (triple_bind _ _ _ (fun _ _ => True)); [|intros _; by apply triple_ret].
  destruct verbose; [|by apply triple_ret]. by intros w _.
Qed.

End Send.

Lemma report_eq headline e w :
  report headline e w = (logged (reported headline e) w, Ret None).
Proof.
  unfold report, bind, print, emit, ret, logged, reported.
  cbn [log backends token headers sigint]. by rewrite <- app_assoc.
Qed.

Lemma show_devices_eq verbose w :
  (show_devices verbose w).2 = Ret catalog /\ puts (show_devices verbose w).1 = puts w.
Proof.
  unfold show_devices, bind.
  change (AQT_init w) with ((AQT_init w).1, @Ret unit tt). cbn iota.
  rewrite update_devices_list_eq. cbn [fst snd get_backends].
  split; [by destruct verbose|].
  rewrite puts_logged, puts_with_backends, puts_logged.
  change (puts (AQT_init w).1) with (puts w).
  destruct verbose; unfold count; cbn [List.filter is_put length]; lia.
Qed.

(** X16: [send] raises [DeviceOfflineError] exactly for the devices that
    [show_devices] does not list (no SIGINT arriving during the
    submission). *)
Theorem send_offline_iff_unlisted env info device tok num_retries interval verbose w
    verbose' w' :
  sigint_in_put env (puts w) = false ->
  (exists msg, (send env info device tok num_retries interval verbose w).2
               = Raise (DeviceOfflineError msg))
  <-> (exists listing, (show_devices verbose' w').2 = Ret listing
                       /\ listing !! device = None).
Proof.
  intros Hquiet. rewrite (proj1 (show_devices_eq verbose' w')). split.
  - intros [msg Hsend]. exists catalog. split; [reflexivity|].
    destruct (catalog !! device) as [d|] eqn:Hd; [|reflexivity]. exfalso.
    pose proof (send_body_listed_not_offline env info device (puts w) (sigint w) tok
                  num_retries interval verbose d Hd Hquiet w (conj eq_refl eq_refl))
      as Hbody.
    unfold send, try_except in Hsend.
    destruct (send_body _ _ _ _ _ _ _ _) as [w1 [res|e]]; [discriminate|].
    destruct e; cbn in Hsend, Hbody; discriminate.
  - intros (listing & [= <-] & Hnone). exists "Device is offline.".
    pose proof (send_body_turned_away env info device (puts w) (sigint w) tok
                  num_retries interval verbose) as Hbody.
    unfold accepts in Hbody. rewrite Hnone in Hbody.
    specialize (Hbody eq_refl w (conj eq_refl eq_refl)).
    unfold send, try_except.
    destruct (send_body _ _ _ _ _ _ _ _) as [w1 [res|e]]; [contradiction|].
    destruct Hbody as [_ ->]. reflexivity.
Qed.

Lemma send_offline_iff_unlisted_witness :
  (exists msg, (send env_running bell_pair "aqt_ghost" None 100 1 false w_stale).2
               = Raise (DeviceOfflineError msg))
  <-> (exists listing, (show_devices true w_fresh).2 = Ret listing
                       /\ listing !! "aqt_ghost" = None).
Proof.
  apply (send_offline_iff_unlisted env_running bell_pair "aqt_ghost" None 100 1 false
           w_stale true w_fresh).
  reflexivity.
Defined.

(** X17: [send] turns a job away before it talks to the server: for a
    device that is not listed it raises [DeviceOfflineError], for a job
    larger than the device [DeviceTooSmall], and in both cases no request
    has been issued. *)
Theorem send_turns_away_before_submitting env info device tok num_retries interval
    verbose w :
  accepts info device = false ->
  let out := send env info device tok num_retries interval verbose w in
  puts out.1 = puts w
  /\ out.2 = Raise match catalog !! device with
                   | None => DeviceOfflineError "Device is offline."
                   | Some _ => DeviceTooSmall "Device is too small."
                   end.
Proof.
  intros Hno out. subst out.
  pose proof (send_body_turned_away env info device (puts w) (sigint w) tok
                num_retries interval verbose Hno w (conj eq_refl eq_refl)) as Hbody.
  unfold send, try_except.
  destruct (send_body _ _ _ _ _ _ _ _) as [w1 [res|e]]; [contradiction|].
  destruct Hbody as [Hputs ->].
  destruct (catalog !! device); by split.
Qed.

Lemma send_turns_away_before_submitting_witness :
  let out := send env_running too_large "aqt_simulator" (Some "secret") 100 1 true
               w_start in
  puts out.1 = 0 /\ out.2 = Raise (DeviceTooSmall "Device is too small.").
Proof.
  apply (send_turns_away_before_submitting env_running too_large "aqt_simulator"
           (Some "secret") 100 1 true w_start).
  reflexivity.
Defined.

(** X18: when the submission fails, [send] stops after this one request.
    A request without response, a 4xx/5xx response and a response that lacks
    "status" or "id" are reported and give [None]; a response whose status is
    not "queued" is not handled by [send]: its exception reaches the
    caller. *)
Theorem send_submission_failure env info device tok num_retries interval verbose w e :
  accepts info device = true ->
  sigint_in_put env (puts w) = false ->
  submission_error (server env (puts w)) = Some e ->
  let out := send env info device tok num_retries interval verbose w in
  out.2 = (if caught e then Ret None else Raise e)
  /\ puts out.1 = puts w + 1.
Proof.
  intros Hyes Hquiet He out. subst out. unfold accepts in Hyes.
  destruct (catalog !! device) as [d|] eqn:Hd; [|discriminate].
  apply Z.leb_le in Hyes.
  pose proof (send_body_submission_fails env info device (puts w) (sigint w) tok
                num_retries interval verbose d e Hd Hyes Hquiet He w
                (conj eq_refl eq_refl)) as Hbody.
  unfold send, try_except.
  destruct (send_body _ _ _ _ _ _ _ _) as [w1 [res|e']]; [contradiction|].
  destruct Hbody as [-> Hputs].
  unfold caught.
  destruct e; cbn [dispatch isinstance orb fst snd raise];
    try (split; [reflexivity | lia]).
  all: rewrite report_eq; cbn [fst snd]; split; [reflexivity|].
  all: rewrite puts_logged, Hputs; unfold reported, count;
    cbn [List.filter is_put length]; lia.
Qed.

Lemma send_submission_failure_witness :
  let out := send env_rejected bell_pair "aqt_device" (Some "secret") 100 1 false w_start in
  out.2 = Raise (Exception "Error in sending the code online")
  /\ puts out.1 = 1.
Proof.
  apply (send_submission_failure env_rejected bell_pair "aqt_device" (Some "secret")
           100 1 false w_start (Exception "Error in sending the code online")).
  - reflexivity.
  - reflexivity.
  - reflexivity.
Defined.

Lemma get_result_finishes env device execution_id num_retries interval verbose k h N
    samples :
  quiet env ->
  (0 <= interval)%Z ->
  In device device_names ->
  (forall i, i < N -> is_running (server env (k + i)) = true) ->
  carries_samples samples (server env (k + N)) = true ->
  (Z.of_nat N < num_retries)%Z ->
  triple (ready k h) (get_result env device execution_id num_retries interval verbose)
    (fun res w => puts w = k + N + 1 /\ res = samples) (fun _ _ => False).
Proof.
  intros Hquiet Hint Hdev%catalog_names Hrun Hs Hbudget w [[Hk Hh] Hb].
  assert (Hd : device ∈ dom (backends w)) by (by rewrite Hb).
  rewrite <- Hk in Hrun, Hs.
  destruct (get_result_decided env device execution_id num_retries interval verbose w N
              (Ret (Some samples)) Hquiet Hint Hd Hdev Hrun Hbudget) as [Hres Hputs].
  { discriminate. }
  { intros w1 d Hputs Hd1. apply poll_once_carries_samples; [exact Hd1 | apply Hquiet |].
    by rewrite Hputs. }
  destruct (get_result _ _ _ _ _ _ _) as [w' [res|e]]; cbn [fst snd after_loop] in *.
  - injection Hres as ->. split; [lia | reflexivity].
  - discriminate.
Qed.

(** X20: the whole run.  For a listed device that is large enough, a
    server that queues the job, reports it running [N] times and then
    answers with samples, [send] returns these samples after [N + 2]
    requests. *)
Theorem send_returns_samples env info device tok num_retries interval verbose w
    execution_id N samples :
  quiet env ->
  (0 <= interval)%Z ->
  accepts info device = true ->
  is_queued_as execution_id (server env (puts w)) = true ->
  (forall i, i < N -> is_running (server env (puts w + 1 + i)) = true) ->
  carries_samples samples (server env (puts w + 1 + N)) = true ->
  (Z.of_nat N < num_retries)%Z ->
  let out := send env info device tok num_retries interval verbose w in
  out.2 = Ret (Some samples) /\ puts out.1 = puts w + N + 2.
Proof.
  intros Hquiet Hint Hyes Hq Hrun Hs Hbudget out. subst out. unfold accepts in Hyes.
  destruct (catalog !! device) as [d|] eqn:Hd; [|discriminate].
  apply Z.leb_le in Hyes.
  assert (Hbody : triple (untouched (puts w) (sigint w))
                    (send_body env info device tok num_retries interval verbose)
                    (fun r w' => r = Some samples /\ puts w' = puts w + N + 2)
                    (fun _ _ => False)).
  { pose (k := puts w). pose (h := sigint w). fold k h.
    prelude device k h.
    rewrite bool_decide_eq_true_2 by (apply elem_of_dom; eauto). cbn [negb when].
    apply (triple_bind _ _ _ (fun _ => ready k h)); [by apply triple_ret|]. intros _.
    apply (triple_bind _ _ _
             (fun fits w => ready k h w
                            /\ fits = ((info_nq info <=? nq d)%Z, nq d, info_nq info)));
      [by apply ready_can_run_experiment|].
    intros fits. apply triple_pure. intros ->.
    replace (info_nq info <=? nq d)%Z with true by (symmetry; by apply Z.leb_le).
    cbn [negb when].
    apply (triple_bind _ _ _ (fun _ => ready k h)); [by apply triple_ret|]. intros _.
    apply (triple_bind _ _ _ (fun _ => ready k h)).
    { destruct verbose; [by apply ready_emit | by apply triple_ret]. }
    intros _.
    apply (triple_bind _ _ _ (fun i w' => i = execution_id /\ ready (S k) h w')).
    { apply (run_queues env info device k h d execution_id Hd); [apply Hquiet | exact Hq]. }
    intros i. intros w1 [-> Hw1]. revert w1 Hw1.
    apply (triple_bind _ _ _ (fun _ => ready (S k) h)).
    { destruct verbose; [by apply ready_emit | by apply triple_ret]. }
    intros _.
    apply (triple_bind _ _ _ (fun res w' => puts w' = S k + N + 1 /\ res = samples)).
    { apply get_result_finishes; auto.
      - apply catalog_names, elem_of_dom. eauto.
      - intros j Hj. replace (S k + j) with (puts w + 1 + j) by (unfold k; lia). auto.
      - replace (S k + N) with (puts w + 1 + N) by (unfold k; lia). exact Hs. }
    intros res. apply triple_pure. intros ->.
    apply (triple_bind _ _ _ (fun _ w' => puts w' = S k + N + 1)).
    { destruct verbose; [|by apply triple_ret].
      intros w1 Hw1.
      change (when true (print [[Lit "- Done."]]) w1)
        with (logged [EvPrint [[Lit "- Done."]]] w1, @Ret unit tt).
      cbn iota. rewrite puts_logged, Hw1. unfold count.
      cbn [List.filter is_put length]. lia. }
    intros _. apply triple_ret. intros w1 Hw1. split; [reflexivity | unfold k in Hw1; lia]. }
  specialize (Hbody w (conj eq_refl eq_refl)).
  unfold send, try_except.
  destruct (send_body _ _ _ _ _ _ _ _) as [w1 [res|e]]; [|contradiction].
  destruct Hbody as [-> Hputs]. by split.
Qed.

Lemma send_returns_samples_witness :
  let out := send env_job_done bell_pair "aqt_simulator" (Some "secret") 100 1 false
               w_start in
  out.2 = Ret (Some [3; 0; 3]%Z) /\ puts out.1 = 4.
Proof.
  apply (send_returns_samples env_job_done bell_pair "aqt_simulator" (Some "secret")
           100 1 false w_start "job-1" 2 [3; 0; 3]%Z).
  - intros k. split; reflexivity.
  - lia.
  - reflexivity.
  - reflexivity.
  - intros i Hi. assert (i = 0 \/ i = 1) as [-> | ->] by lia; reflexivity.
  - reflexivity.
  - lia.
Defined.

(** ** The course of [send] *)

Lemma when_print_eq verbose line w :
  when verbose (print line) w
  = (logged (if verbose then [EvPrint line] else []) w, Ret tt).
Proof. destruct verbose; [reflexivity | by rewrite logged_nil]. Qed.

(** [send_body] in one equation: the session is set up, then the job is
    turned away or submitted and polled. *)
Lemma send_body_eq env info device tok num_retries interval verbose w :
  send_body env info device tok num_retries interval verbose w
  = let w5 := send_refreshed env tok verbose w in
    match catalog !! device with
    | None => (logged [offline_line] w5, Raise (DeviceOfflineError "Device is offline."))
    | Some d =>
        if (info_nq info <=? nq d)%Z
        then submit_and_poll env info device num_retries interval verbose w5
        else (logged [too_small_line (nq d) (info_nq info)] w5,
              Raise (DeviceTooSmall "Device is too small."))
    end.
Proof.
  unfold send_body, submit_and_poll.
  set (w1 := (AQT_init w).1).
  set (w2 := logged (if verbose then [EvPrint [[Lit "- Authenticating..."]]] else []) w1).
  set (w3 := logged match tok with
                    | Some t => [EvPrint [[Lit "user API token: "; Lit t]]]
                    | None => []
                    end w2).
  set (w4 := (authenticate env tok w3).1).
  assert (H1 : AQT_init w = (w1, Ret tt)) by reflexivity.
  assert (H2 : when verbose (print [[Lit "- Authenticating..."]]) w1 = (w2, Ret tt))
    by apply when_print_eq.
  assert (H3 : match tok with
               | Some t => print [[Lit "user API token: "; Lit t]]
               | None => ret tt
               end w2 = (w3, Ret tt)).
  { subst w3. destruct tok; [reflexivity | by rewrite logged_nil]. }
  assert (H4 : authenticate env tok w3 = (w4, Ret tt)) by (by destruct tok).
  assert (H5 : update_devices_list verbose w4
               = (send_refreshed env tok verbose w, Ret tt)).
  { rewrite update_devices_list_eq. f_equal.
    subst w4 w3 w2 w1. unfold send_refreshed, send_preamble, logged, with_backends.
    destruct tok, verbose; cbn [authenticate bind getpass emit ret headers_update
      set_token fold_left fst snd log backends token headers sigint AQT_init
      set_headers set_backends effective_token];
      rewrite <- ?app_assoc, ?app_nil_r; reflexivity. }
  unfold bind at 1. rewrite H1. unfold bind at 1. rewrite H2.
  unfold bind at 1. rewrite H3. unfold bind at 1. rewrite H4.
  unfold bind at 1. rewrite H5. cbn zeta.
  set (w5 := send_refreshed env tok verbose w).
  unfold bind at 1. rewrite is_online_eq.
  change (backends w5) with catalog.
  destruct (catalog !! device) as [d|] eqn:Hd.
  - rewrite bool_decide_eq_true_2 by (apply elem_of_dom; eauto).
    cbn [negb when]. unfold bind at 1. cbn [ret].
    unfold bind at 1. unfold can_run_experiment, bind at 1, backends_getitem.
    change (backends w5) with catalog. rewrite Hd. cbn [ret].
    destruct (info_nq info <=? nq d)%Z; cbn [negb when]; reflexivity.
  - rewrite bool_decide_eq_false_2 by (by apply not_elem_of_dom).
    reflexivity.
Qed.

Lemma run_world env info device w d :
  backends w !! device = Some d ->
  (run env info device w).1 = logged [submit_request info d (token w)] w.
Proof.
  intros Hd. unfold run, bind, get_token, backends_getitem. rewrite Hd.
  unfold logged. run_cases env w.
Qed.

Lemma get_result_sigint env device execution_id num_retries interval verbose w h0 :
  sigint w = Some h0 ->
  sigint (get_result env device execution_id num_retries interval verbose w).1 = Some h0.
Proof.
  intros Hh. unfold get_result.
  destruct (for_each (range num_retries)
              (poll_once env AQT_methods device execution_id interval)
              (loop_entry execution_id verbose w)) as [w' r] eqn:Heq.
  rewrite (get_result_with_eq _ _ _ _ _ _ _ _ _ _ Heq). cbn [fst]. by rewrite Hh.
Qed.

(** The submission and the poll in one equation. *)
Lemma submit_and_poll_eq env info device num_retries interval verbose w d :
  backends w !! device = Some d ->
  submit_and_poll env info device num_retries interval verbose w
  = let w6 := logged (if verbose
                      then [EvPrint [[Lit "- Running code: "; FmtInfo info]]]
                      else []) w in
    let w7 := logged [submit_request info d (token w)] w6 in
    match (run env info device w6).2 with
    | Raise e => (w7, Raise e)
    | Ret execution_id =>
        let w8 := logged (if verbose
                          then [EvPrint [[Lit "- Waiting for results..."]]]
                          else []) w7 in
        let out := get_result env device execution_id num_retries interval verbose w8 in
        match out.2 with
        | Raise e => (out.1, Raise e)
        | Ret res => (logged (if verbose then [EvPrint [[Lit "- Done."]]] else []) out.1,
                      Ret (Some res))
        end
    end.
Proof.
  intros Hd. unfold submit_and_poll. unfold bind at 1. rewrite when_print_eq.
  cbn zeta. set (w6 := logged _ w).
  assert (Hd6 : backends w6 !! device = Some d) by exact Hd.
  pose proof (run_world env info device w6 d Hd6) as Hrun.
  change (token w6) with (token w) in Hrun.
  unfold bind at 1.
  destruct (run env info device w6) as [w7 [i|e]]; cbn [fst snd] in *; subst w7;
    [|reflexivity].
  unfold bind at 1. rewrite when_print_eq.
  unfold bind at 1.
  destruct (get_result _ _ _ _ _ _ _) as [w9 [res|e]]; cbn [fst snd]; [|reflexivity].
  unfold bind. by rewrite when_print_eq.
Qed.

Lemma puts_send_refreshed env tok verbose w :
  puts (send_refreshed env tok verbose w) = puts w.
Proof.
  unfold puts, send_refreshed. cbn [log]. rewrite count_app.
  replace (count is_put (send_preamble tok verbose)) with 0; [lia|].
  by destruct tok, verbose.
Qed.

(** What [send] adds to the world that its [try] block leaves: nothing, or
    the two lines of an [except] clause. *)
Lemma send_tail env info device tok num_retries interval verbose w :
  exists tail,
    (send env info device tok num_retries interval verbose w).1
    = logged tail (send_body env info device tok num_retries interval verbose w).1
    /\ (tail = [] \/ exists headline e, tail = reported headline e).
Proof.
  unfold send, try_except.
  destruct (send_body _ _ _ _ _ _ _ _) as [w1 [res|e]].
  - exists []. rewrite logged_nil. auto.
  - destruct e; cbn [dispatch isinstance fst snd raise]; rewrite ?report_eq;
      first [ by (exists []; rewrite logged_nil; auto)
            | by (eexists; split; [reflexivity | right; eauto]) ].
Qed.

Lemma later_trans w1 w2 w3 : later w1 w2 -> later w2 w3 -> later w1 w3.
Proof.
  intros [[es1 H1] S1] [[es2 H2] S2].
  split; [exists (es1 ++ es2)%list; by rewrite H2, H1, app_assoc | auto].
Qed.

Lemma later_logged es w : later w (logged es w).
Proof. split; [by exists es | auto]. Qed.

Lemma later_get_result env device execution_id num_retries interval verbose w :
  later w (get_result env device execution_id num_retries interval verbose w).1.
Proof.
  split.
  - destruct (get_result_polled env device execution_id num_retries interval verbose w)
      as (_ & es & Hlog & _).
    by exists es.
  - intros h0 Hh. by apply get_result_sigint.
Qed.

Lemma later_submit_and_poll env info device num_retries interval verbose w d :
  backends w !! device = Some d ->
  later w (submit_and_poll env info device num_retries interval verbose w).1.
Proof.
  intros Hd. rewrite (submit_and_poll_eq _ _ _ _ _ _ _ d Hd). cbn zeta.
  set (w6 := logged _ w). set (w7 := logged _ w6).
  assert (H7 : later w w7) by (eapply later_trans; apply later_logged).
  destruct ((run env info device w6).2) as [i|e]; [|exact H7].
  set (w8 := logged _ w7).
  assert (H9 : later w (get_result env device i num_retries interval verbose w8).1).
  { eapply later_trans; [exact H7|].
    eapply later_trans; [apply later_logged | apply later_get_result]. }
  destruct (get_result _ _ _ _ _ _ _) as [w9 [res|e]]; cbn [fst snd] in *;
    [|exact H9].
  eapply later_trans; [exact H9 | apply later_logged].
Qed.

Lemma later_send env info device tok num_retries interval verbose w :
  later (send_refreshed env tok verbose w)
        (send env info device tok num_retries interval verbose w).1.
Proof.
  destruct (send_tail env info device tok num_retries interval verbose w)
    as (tail & -> & _).
  eapply later_trans; [|apply later_logged].
  rewrite send_body_eq. cbn zeta.
  destruct (catalog !! device) as [d|] eqn:Hd; [|apply later_logged].
  destruct (_ <=? _)%Z; [|apply later_logged].
  by apply (later_submit_and_poll _ _ _ _ _ _ _ d).
Qed.

(** X21: [send] prints the API token that it is given, whether or not
    [verbose] is set and whatever happens afterwards. *)
Theorem send_prints_token env info device t num_retries interval verbose w :
  In (EvPrint [[Lit "user API token: "; Lit t]])
     (log (send env info device (Some t) num_retries interval verbose w).1).
Proof.
  destruct (later_send env info device (Some t) num_retries interval verbose w)
    as [[es ->] _].
  apply in_or_app. left. unfold send_refreshed. cbn [log].
  apply in_or_app. right. unfold send_preamble.
  apply in_or_app. right. apply in_or_app. left. by left.
Qed.

(** X22: [send] and [retrieve] leave the SIGINT handler of the process as
    they found it, whatever the server answers and whichever of their
    requests and sleeps a SIGINT interrupts, provided the handler was
    installed from Python.  This is about signals that arrive while a
    request or a sleep blocks, the only ones that [send] and [retrieve] are
    modelled with; a signal that is still pending when [get_result] restores
    the handler is the subject of C7. *)
Theorem send_retrieve_keep_handler env info device tok jobid num_retries interval
    verbose w h0 :
  sigint w = Some h0 ->
  sigint (send env info device tok num_retries interval verbose w).1 = Some h0
  /\ sigint (retrieve env device tok jobid num_retries interval verbose w).1 = Some h0.
Proof.
  intros Hh. split.
  - by apply (later_send env info device tok num_retries interval verbose w).
  - rewrite retrieve_eq. apply get_result_sigint.
    destruct (retrieve_session_facts env tok verbose w) as (_ & _ & _ & ->).
    exact Hh.
Qed.

Lemma send_retrieve_keep_handler_witness :
  sigint (send env_ctrl_c_poll bell_pair "aqt_simulator" None 100 1 true w_start).1
  = Some default_int_handler
  /\ sigint (retrieve env_down "aqt_simulator" None "job-1" 100 1 true w_start).1
     = Some default_int_handler.
Proof.
  split.
  - refine (proj1 (send_retrieve_keep_handler env_ctrl_c_poll bell_pair "aqt_simulator"
                     None "job-1" 100 1 true w_start default_int_handler _)).
    reflexivity.
  - refine (proj2 (send_retrieve_keep_handler env_down bell_pair "aqt_simulator"
                     None "job-1" 100 1 true w_start default_int_handler _)).
    reflexivity.
Defined.

(** What [send] has in hand when the server has queued the job: the world
    in which the poll starts. *)
Lemma send_body_queued env info device tok num_retries interval verbose w d i :
  catalog !! device = Some d ->
  (info_nq info <= nq d)%Z ->
  sigint_in_put env (puts w) = false ->
  is_queued_as i (server env (puts w)) = true ->
  let w5 := send_refreshed env tok verbose w in
  let w6 := logged (if verbose
                    then [EvPrint [[Lit "- Running code: "; FmtInfo info]]]
                    else []) w5 in
  let w8 := logged (if verbose
                    then [EvPrint [[Lit "- Waiting for results..."]]]
                    else [])
              (logged [submit_request info d (Some (effective_token env tok))] w6) in
  let out := get_result env device i num_retries interval verbose w8 in
  puts w8 = puts w + 1
  /\ send_body env info device tok num_retries interval verbose w
     = match out.2 with
       | Raise e => (out.1, Raise e)
       | Ret res => (logged (if verbose then [EvPrint [[Lit "- Done."]]] else []) out.1,
                     Ret (Some res))
       end.
Proof.
  intros Hd Hfits Hquiet Hq w5 w6 w8 out.
  assert (H6 : puts w6 = puts w).
  { subst w6 w5. rewrite puts_logged, puts_send_refreshed.
    destruct verbose; unfold count; cbn [List.filter is_put length]; lia. }
  split.
  { subst w8. rewrite !puts_logged, H6.
    destruct verbose; unfold count, submit_request; cbn [List.filter is_put length]; lia. }
  rewrite send_body_eq. cbn zeta. rewrite Hd.
  replace (info_nq info <=? nq d)%Z with true by (symmetry; by apply Z.leb_le).
  fold w5. rewrite (submit_and_poll_eq env info device num_retries interval verbose w5 d Hd).
  cbn zeta. fold w6.
  assert (Hready : ready (puts w) (sigint w) w6) by (by repeat split).
  pose proof (run_queues env info device (puts w) (sigint w) d i Hd Hquiet Hq w6 Hready)
    as Hrun.
  destruct (run env info device w6) as [w7 [j|e]]; cbn [snd]; [|contradiction].
  destruct Hrun as [-> _]. reflexivity.
Qed.

(** X23: the requests of a run of [send].  Once the server has queued the
    job, the log of [send] is: lines, the prompt and the refresh, without
    any request; the submission, to the URL of the device and with the
    token of the session; and then nothing but polls for the id that the
    submission returned, with the same token, sleeps of [interval] seconds
    and printed lines - at most [num_retries] polls, and no second
    submission, whatever the server answers afterwards. *)
Theorem send_protocol env info device tok num_retries interval verbose w d i :
  catalog !! device = Some d ->
  (info_nq info <= nq d)%Z ->
  sigint_in_put env (puts w) = false ->
  is_queued_as i (server env (puts w)) = true ->
  let tk := Some (effective_token env tok) in
  exists pre es,
    log (send env info device tok num_retries interval verbose w).1
    = (log w ++ pre ++ [submit_request info d tk] ++ es)%list
    /\ count is_put pre = 0
    /\ forallb (poll_event_ok i tk interval) es = true
    /\ count is_put es <= Z.to_nat num_retries.
Proof.
  intros Hd Hfits Hquiet Hq tk.
  destruct (send_tail env info device tok num_retries interval verbose w)
    as (tail & -> & Htail).
  destruct (send_body_queued env info device tok num_retries interval verbose w d i
              Hd Hfits Hquiet Hq) as [_ ->].
  set (line := if verbose then [EvPrint [[Lit "- Running code: "; FmtInfo info]]] else []).
  set (waiting := if verbose then [EvPrint [[Lit "- Waiting for results..."]]] else []).
  set (done := if verbose then [EvPrint [[Lit "- Done."]]] else []).
  set (w8 := logged waiting _).
  destruct (get_result_polled env device i num_retries interval verbose w8)
    as (_ & es & Hlog & Hok & Hn).
  change (token w8) with tk in Hok.
  assert (Hprints : forall l,
            l = line \/ l = waiting \/ l = done \/ l = tail ->
            forallb (poll_event_ok i tk interval) l = true /\ count is_put l = 0).
  { intros l [-> | [-> | [-> | ->]]].
    1-3: by destruct verbose.
    by destruct Htail as [-> | (headline & e & ->)]. }
  destruct (Hprints line) as [_ Hline0]; [auto|].
  destruct (Hprints waiting) as [Hwait Hwait0]; [auto|].
  destruct (Hprints done) as [Hdone Hdone0]; [auto|].
  destruct (Hprints tail) as [Htl Htl0]; [auto|].
  assert (Hpre : count is_put (send_preamble tok verbose ++ line) = 0).
  { rewrite count_app, Hline0. by destruct tok, verbose. }
  assert (Hlog8 : log w8 = (log w ++ (send_preamble tok verbose ++ line)
                              ++ [submit_request info d tk] ++ waiting)%list).
  { subst w8. unfold logged, send_refreshed. cbn [log].
    by rewrite <- !app_assoc. }
  exists (send_preamble tok verbose ++ line)%list.
  destruct (get_result env device i num_retries interval verbose w8) as [w9 [res|e]];
    cbn [fst snd logged log] in *.
  - exists (waiting ++ es ++ done ++ tail)%list. split; [|split; [exact Hpre|split]].
    + rewrite Hlog, Hlog8. by rewrite <- !app_assoc.
    + rewrite !forallb_app, Hwait, Hok, Hdone, Htl. reflexivity.
    + rewrite !count_app, Hwait0, Hdone0, Htl0. lia.
  - exists (waiting ++ es ++ tail)%list. split; [|split; [exact Hpre|split]].
    + rewrite Hlog, Hlog8. by rewrite <- !app_assoc.
    + rewrite !forallb_app, Hwait, Hok, Htl. reflexivity.
    + rewrite !count_app, Hwait0, Htl0. lia.
Qed.

Lemma send_protocol_witness :
  exists pre es,
    log (send env_job_done bell_pair "aqt_simulator" None 100 1 true w_start).1
    = (log w_start ++ pre
       ++ [submit_request bell_pair (mkDevice 11 "0.0.1" "sim/") (Some "secret")]
       ++ es)%list
    /\ count is_put pre = 0
    /\ forallb (poll_event_ok "job-1" (Some "secret") 1) es = true
    /\ count is_put es <= Z.to_nat 100.
Proof.
  apply (send_protocol env_job_done bell_pair "aqt_simulator" None 100 1 true w_start
           (mkDevice 11 "0.0.1" "sim/") "job-1").
  - reflexivity.
  - cbn. lia.
  - reflexivity.
  - reflexivity.
Defined.

(** X24: Ctrl-C while the first poll request of [get_result] blocks ends
    the call after this one request with an exception that carries the
    execution id, and the handler that was installed before is back in
    place. *)
Theorem get_result_interrupt env device execution_id num_retries interval verbose w
    d h0 :
  backends w !! device = Some d ->
  sigint w = Some h0 ->
  sigint_in_put env (puts w) = true ->
  (0 < num_retries)%Z ->
  let out := get_result env device execution_id num_retries interval verbose w in
  out.2 = Raise (Exception (interrupted_msg execution_id))
  /\ puts out.1 = puts w + 1
  /\ sigint out.1 = Some h0.
Proof.
  intros Hd Hh Hint Hpos out. subst out.
  destruct (get_result_interrupted env device execution_id num_retries interval verbose
              w d Hd Hint Hpos) as [Hres Hputs].
  repeat split; [exact Hres | exact Hputs | by apply get_result_sigint].
Qed.

Lemma get_result_interrupt_witness :
  let out := get_result env_down "aqt_device" "job-7" 5 1 true w_ready in
  out.2 = Raise (Exception (interrupted_msg "job-7"))
  /\ puts out.1 = puts w_ready + 1
  /\ sigint out.1 = Some default_int_handler.
Proof.
  apply (get_result_interrupt env_down "aqt_device" "job-7" 5 1 true w_ready
           (mkDevice 4 "0.0.1" "lint/") default_int_handler).
  - reflexivity.
  - reflexivity.
  - reflexivity.
  - lia.
Defined.

(** X25: Ctrl-C during the poll is not handled by [send].  When the job is
    queued and SIGINT arrives while the first poll request blocks, [send]
    raises the exception that names the job id - it does not return [None]
    - after two requests, with the previous handler back in place. *)
Theorem send_interrupted env info device tok num_retries interval verbose w i h0 :
  accepts info device = true ->
  sigint w = Some h0 ->
  sigint_in_put env (puts w) = false ->
  is_queued_as i (server env (puts w)) = true ->
  sigint_in_put env (puts w + 1) = true ->
  (0 < num_retries)%Z ->
  let out := send env info device tok num_retries interval verbose w in
  out.2 = Raise (Exception (interrupted_msg i))
  /\ puts out.1 = puts w + 2
  /\ sigint out.1 = Some h0.
Proof.
  intros Hyes Hh Hquiet Hq Hint Hpos out. subst out. unfold accepts in Hyes.
  destruct (catalog !! device) as [d|] eqn:Hd; [|discriminate].
  apply Z.leb_le in Hyes.
  destruct (send_body_queued env info device tok num_retries interval verbose w d i
              Hd Hyes Hquiet Hq) as [Hputs8 Hbody].
  set (w8 := logged _ (logged _ (logged _ (send_refreshed env tok verbose w)))) in *.
  assert (Hd8 : backends w8 !! device = Some d) by exact Hd.
  assert (Hh8 : sigint w8 = Some h0) by exact Hh.
  rewrite <- Hputs8 in Hint.
  destruct (get_result_interrupted env device i num_retries interval verbose w8 d
              Hd8 Hint Hpos) as [Hres Hputs].
  pose proof (get_result_sigint env device i num_retries interval verbose w8 h0 Hh8)
    as Hsig.
  unfold send, try_except. rewrite Hbody.
  destruct (get_result env device i num_retries interval verbose w8) as [w9 o].
  cbn [fst snd] in *. subst o.
  cbn [dispatch isinstance fst snd raise].
  repeat split; [lia | exact Hsig].
Qed.

Lemma send_interrupted_witness :
  let out := send env_ctrl_c_poll bell_pair "aqt_simulator" None 100 1 false w_start in
  out.2 = Raise (Exception (interrupted_msg "job-1"))
  /\ puts out.1 = puts w_start + 2
  /\ sigint out.1 = Some default_int_handler.
Proof.
  apply (send_interrupted env_ctrl_c_poll bell_pair "aqt_simulator" None 100 1 false
           w_start "job-1" default_int_handler).
  - reflexivity.
  - reflexivity.
  - reflexivity.
  - reflexivity.
  - reflexivity.
  - lia.
Defined.

(** ** Signals that are pending when the handler is changed *)

(** With no signal pending, [get_result_pending] is [get_result]. *)
Lemma get_result_pending_none env device execution_id num_retries interval verbose w :
  get_result_pending env no_pending device execution_id num_retries interval verbose w
  = get_result env device execution_id num_retries interval verbose w.
Proof. reflexivity. Qed.

(** The rounds of the loop keep the handler of [get_result] installed,
    however many of them run and however they end. *)
Lemma handler_rounds env device execution_id interval xs w :
  handler_installed execution_id w ->
  handler_installed execution_id
    (for_each xs (poll_once env AQT_methods device execution_id interval) w).1.
Proof.
  intros Hw.
  pose proof (handler_loop env device execution_id interval xs w Hw) as Hloop.
  destruct (for_each _ _ _) as [w' [r|e]]; [exact Hloop | exact (proj1 Hloop)].
Qed.

(** [get_result_pending] when the handler gets installed. *)
Lemma get_result_pending_eq env p device execution_id num_retries interval verbose w :
  served (at_install p) (sigint w) = None ->
  let loop := for_each (range num_retries)
                (poll_once env AQT_methods device execution_id interval)
                (loop_entry execution_id verbose w) in
  get_result_pending env p device execution_id num_retries interval verbose w
  = match sigint w with
    | None => (loop.1, after_loop execution_id loop.2)
    | Some h =>
        if at_restore p
        then (loop.1, Raise (Exception (interrupted_msg execution_id)))
        else (with_sigint (Some h) loop.1, after_loop execution_id loop.2)
    end.
Proof.
  intros Hserved loop.
  assert (Hown : sigint loop.1 = Some (_handle_sigint_during_get_result execution_id)).
  { apply handler_rounds. apply handler_installed_loop_entry. }
  unfold get_result_pending. unfold bind at 1. rewrite when_print_eq.
  unfold bind at 1. cbn [getsignal]. unfold bind at 1. unfold try_finally.
  set (entry := logged _ w).
  assert (Hinstall : signal_signal_pending (at_install p)
                       (_handle_sigint_during_get_result execution_id) entry
                     = (loop_entry execution_id verbose w, Ret tt)).
  { unfold signal_signal_pending, bind, when, served in *.
    destruct (at_install p); [|reflexivity].
    unfold deliver_sigint. change (sigint entry) with (sigint w).
    destruct (sigint w) as [[| |name [e|]]|]; try reflexivity. discriminate. }
  unfold bind at 1. rewrite Hinstall. fold loop.
  change (sigint entry) with (sigint w).
  destruct loop as [w1 r] eqn:Hloop. cbn [fst snd] in *.
  destruct (sigint w) as [h|].
  - unfold signal_signal_pending, bind, when.
    destruct (at_restore p).
    + unfold deliver_sigint. rewrite Hown. reflexivity.
    + cbn [ret signal_signal]. by destruct r as [[s|]|e].
  - cbn [ret]. by destruct r as [[s|]|e].
Qed.

(** ... and when a pending signal makes the previous handler raise before
    the handler is installed. *)
Lemma get_result_pending_aborted env p device execution_id num_retries interval
    verbose w e0 :
  served (at_install p) (sigint w) = Some e0 ->
  get_result_pending env p device execution_id num_retries interval verbose w
  = (logged (if verbose
             then [EvPrint [[Lit "Waiting for results. [Job ID: "; Lit execution_id;
                             Lit "]"]]]
             else []) w,
     Raise e0).
Proof.
  intros Hserved. unfold served in Hserved.
  destruct (at_install p) eqn:Hp; [|discriminate].
  destruct (sigint w) as [[| |name [e|]]|] eqn:Hw; try discriminate.
  injection Hserved as ->.
  unfold get_result_pending. unfold bind at 1. rewrite when_print_eq.
  unfold bind at 1. cbn [getsignal]. unfold bind at 1. unfold try_finally.
  set (entry := logged _ w).
  assert (Hentry : sigint entry = Some (PyHandler name (Some e0))) by exact Hw.
  unfold bind at 1. unfold signal_signal_pending at 1. unfold bind at 1.
  rewrite Hp. cbn [when]. unfold deliver_sigint at 1. rewrite Hentry.
  unfold signal_signal_pending, bind, when.
  destruct (at_restore p).
  - unfold deliver_sigint. rewrite Hentry. reflexivity.
  - cbn [ret signal_signal]. f_equal.
    destruct entry. cbn in *. by subst.
Qed.

(** C7 (as amended): [get_result] installs its handler at the start of the
    [try] block, and the handler is the one in force before the first round
    of the loop and after any number of rounds, however they end: the call
    is the loop run under this handler, followed by the [finally] block.
    The [finally] block restores the handler that [signal.getsignal] had
    returned before, on every way out of the loop, with two exceptions.
    When [getsignal] had returned [None], nothing is restored and the
    handler of [get_result] stays installed.  When a SIGINT is pending at
    the moment the [finally] block calls [signal.signal], the handler of
    [get_result] handles it: its exception replaces the outcome of the loop
    and the handler stays installed.  (When a SIGINT is pending already at
    the first call of [signal.signal] and the previous handler raises,
    nothing is installed and no round runs.)  [get_result] is the case in
    which no signal is pending at either call. *)
Theorem get_result_restores_handler env p device execution_id num_retries interval
    verbose w :
  let own := _handle_sigint_during_get_result execution_id in
  let rounds m := for_each (take m (range num_retries))
                    (poll_once env AQT_methods device execution_id interval)
                    (loop_entry execution_id verbose w) in
  let loop := rounds (Z.to_nat num_retries) in
  let out := get_result_pending env p device execution_id num_retries interval
               verbose w in
  get_result env device execution_id num_retries interval verbose w
  = get_result_pending env no_pending device execution_id num_retries interval verbose w
  /\
  match served (at_install p) (sigint w) with
  | Some e0 =>
      out.2 = Raise e0 /\ sigint out.1 = sigint w /\ puts out.1 = puts w
  | None =>
      (forall m, sigint (rounds m).1 = Some own)
      /\ out = match sigint w with
               | None => (loop.1, after_loop execution_id loop.2)
               | Some h =>
                   if at_restore p
                   then (loop.1, Raise (Exception (interrupted_msg execution_id)))
                   else (with_sigint (Some h) loop.1, after_loop execution_id loop.2)
               end
      /\ sigint out.1 = match sigint w with
                        | None => Some own
                        | Some h => if at_restore p then Some own else Some h
                        end
  end.
Proof.
  intros own rounds loop out. split; [reflexivity|].
  destruct (served (at_install p) (sigint w)) as [e0|] eqn:Hserved.
  - subst out. rewrite (get_result_pending_aborted _ _ _ _ _ _ _ _ _ Hserved).
    cbn [fst snd]. repeat split.
    rewrite puts_logged. destruct verbose; unfold count; cbn [List.filter is_put length]; lia.
  - assert (Hrounds : forall m, sigint (rounds m).1 = Some own).
    { intros m. apply handler_rounds. apply handler_installed_loop_entry. }
    assert (Hall : take (Z.to_nat num_retries) (range num_retries) = range num_retries).
    { apply take_ge. unfold range. rewrite length_seq. lia. }
    assert (Hout : out = match sigint w with
                         | None => (loop.1, after_loop execution_id loop.2)
                         | Some h =>
                             if at_restore p
                             then (loop.1, Raise (Exception (interrupted_msg execution_id)))
                             else (with_sigint (Some h) loop.1,
                                   after_loop execution_id loop.2)
                         end).
    { subst out loop rounds. cbn beta. rewrite Hall.
      by apply get_result_pending_eq. }
    split; [exact Hrounds|]. split; [exact Hout|].
    rewrite Hout. specialize (Hrounds (Z.to_nat num_retries)). fold loop in Hrounds.
    destruct (sigint w) as [h|]; [destruct (at_restore p)|]; cbn [fst with_sigint sigint];
      auto.
Qed.

Lemma get_result_keeps_its_handler :
  (* the previous handler was not installed from Python *)
  sigint (get_result_pending env_running no_pending "aqt_device" "job" 1 1 false
            w_foreign_handler).1
  <> sigint w_foreign_handler
  (* the job is finished, and a SIGINT is pending when the handler is restored *)
  /\ (let out := get_result_pending (env_third_time 7) (mkPending false true)
                   "aqt_simulator" "job" 3 1 false w_ready in
      out.2 = Raise (Exception (interrupted_msg "job"))
      /\ sigint out.1 <> sigint w_ready).
Proof. vm_compute. repeat split; discriminate. Qed.

(** ** The exception policy of [send] *)

(** What the [except] clauses make of the outcome of the [try] block. *)
Lemma send_handles env info device tok num_retries interval verbose w :
  send env info device tok num_retries interval verbose w
  = match send_body env info device tok num_retries interval verbose w with
    | (w1, Ret res) => (w1, Ret res)
    | (w1, Raise e) =>
        if caught e
        then (logged (reported (headline e) e) w1, Ret None)
        else (w1, Raise e)
    end.
Proof.
  unfold send, try_except.
  destruct (send_body _ _ _ _ _ _ _ _) as [w1 [res|e]]; [reflexivity|].
  destruct e; cbn [dispatch isinstance caught headline orb raise]; rewrite ?report_eq;
    reflexivity.
Qed.

Lemma poll_error_caught r e : poll_error r = Some e -> caught e = true.
Proof.
  unfold poll_error, transport_error.
  destruct r as [|code body].
  - by intros [= <-].
  - destruct (is_error_status code); [by intros [= <-]|].
    destruct (missing_key _); [|discriminate]. by intros [= <-].
Qed.

(** The poll of [send] for a job that the server has queued, when one of
    the answers that follow is an error. *)
Lemma send_body_poll_fails env info device tok num_retries interval verbose w d i N e :
  catalog !! device = Some d ->
  (info_nq info <= nq d)%Z ->
  quiet env ->
  (0 <= interval)%Z ->
  is_queued_as i (server env (puts w)) = true ->
  (forall j, j < N -> is_running (server env (puts w + 1 + j)) = true) ->
  (Z.of_nat N < num_retries)%Z ->
  poll_error (server env (puts w + 1 + N)) = Some e ->
  exists w1,
    puts w1 = puts w + N + 2
    /\ send_body env info device tok num_retries interval verbose w = (w1, Raise e).
Proof.
  intros Hd Hfits Hquiet Hint Hq Hrun Hbudget He.
  destruct (send_body_queued env info device tok num_retries interval verbose w d i
              Hd Hfits (proj1 (Hquiet _)) Hq) as [Hputs8 ->].
  set (w8 := logged _ (logged _ (logged _ (send_refreshed env tok verbose w)))) in *.
  assert (Hdev : device ∈ dom (backends w8)).
  { change (backends w8) with catalog. apply elem_of_dom. eauto. }
  assert (Hcat : device ∈ dom catalog) by (apply elem_of_dom; eauto).
  destruct (get_result_decided env device i num_retries interval verbose w8 N (Raise e)
              Hquiet Hint Hdev Hcat) as [Hres Hputs].
  { intros j Hj. rewrite Hputs8. by apply Hrun. }
  { exact Hbudget. }
  { discriminate. }
  { intros w1 d1 Hputs1 Hd1. rewrite <- Hputs8, <- Hputs1 in He.
    unfold poll_error in He.
    destruct (transport_error (server env (puts w1))) as [e'|] eqn:Ht.
    - injection He as <-.
      apply poll_once_transport_error; [exact Hd1 | apply Hquiet | exact Ht].
    - destruct (missing_key (server env (puts w1))) as [key|] eqn:Hk; [|discriminate].
      injection He as <-.
      apply poll_once_missing_key; [exact Hd1 | apply Hquiet | exact Hk]. }
  destruct (get_result env device i num_retries interval verbose w8) as [w9 o].
  cbn [fst snd after_loop] in *. subst o. exists w9. split; [lia | reflexivity].
Qed.

(** ... and when none of them ends the poll. *)
Lemma send_body_times_out env info device tok num_retries interval verbose w d i :
  catalog !! device = Some d ->
  (info_nq info <= nq d)%Z ->
  quiet env ->
  (0 <= interval)%Z ->
  is_queued_as i (server env (puts w)) = true ->
  (forall j, j < Z.to_nat num_retries ->
             is_running (server env (puts w + 1 + j)) = true) ->
  (send_body env info device tok num_retries interval verbose w).2
  = Raise (RequestTimeoutError (timeout_msg i)).
Proof.
  intros Hd Hfits Hquiet Hint Hq Hrun.
  destruct (send_body_queued env info device tok num_retries interval verbose w d i
              Hd Hfits (proj1 (Hquiet _)) Hq) as [Hputs8 ->].
  set (w8 := logged _ (logged _ (logged _ (send_refreshed env tok verbose w)))) in *.
  assert (Hdev : device ∈ dom (backends w8)).
  { change (backends w8) with catalog. apply elem_of_dom. eauto. }
  destruct (get_result_with_all_running env AQT_methods (fun _ => catalog) device i
              num_retries interval verbose w8 AQT_follows_portal Hquiet Hint Hdev)
    as (Hres & _).
  { intros j Hj. rewrite Hputs8. by apply Hrun. }
  { intros j _. apply elem_of_dom. eauto. }
  fold (get_result env) in Hres.
  destruct (get_result env device i num_retries interval verbose w8) as [w9 o].
  cbn [fst snd] in *. by subst o.
Qed.

(** C6: [send] handles the errors of the transport, of [requests] and of
    the parsing of a response: an HTTP error (a 500 response, say), a
    request without response and a response that lacks a key, whether they
    come from the submission or from a poll, end in two printed lines - the
    line of the [except] clause and the error - and in the result [None];
    nothing more is sent.  The errors of the project are not handled:
    [DeviceOfflineError] for a device that is not listed, [DeviceTooSmall]
    for a job that is too large and [RequestTimeoutError] for a job that
    stays "running" leave [send], as does every other exception that its
    [try] block raises. *)
Theorem send_exception_policy env info device tok num_retries interval verbose w :
  let out := send env info device tok num_retries interval verbose w in
  let k := puts w in
  (* an error of the submission *)
  (accepts info device = true ->
   sigint_in_put env k = false ->
   forall e, submission_error (server env k) = Some e ->
     exists w1,
       puts w1 = k + 1
       /\ out = if caught e
                then (logged (reported (headline e) e) w1, Ret None)
                else (w1, Raise e))
  (* an error of a poll *)
  /\ (accepts info device = true ->
      quiet env ->
      (0 <= interval)%Z ->
      forall i N e,
        is_queued_as i (server env k) = true ->
        (forall j, j < N -> is_running (server env (k + 1 + j)) = true) ->
        (Z.of_nat N < num_retries)%Z ->
        poll_error (server env (k + 1 + N)) = Some e ->
        exists w1,
          puts w1 = k + N + 2
          /\ out = (logged (reported (headline e) e) w1, Ret None))
  (* the errors of the project *)
  /\ (catalog !! device = None ->
      out.2 = Raise (DeviceOfflineError "Device is offline."))
  /\ (forall d,
        catalog !! device = Some d ->
        (nq d < info_nq info)%Z ->
        out.2 = Raise (DeviceTooSmall "Device is too small."))
  /\ (accepts info device = true ->
      quiet env ->
      (0 <= interval)%Z ->
      forall i,
        is_queued_as i (server env k) = true ->
        (forall j, j < Z.to_nat num_retries ->
                   is_running (server env (k + 1 + j)) = true) ->
        out.2 = Raise (RequestTimeoutError (timeout_msg i)))
  (* whatever the [try] block does *)
  /\ match send_body env info device tok num_retries interval verbose w with
     | (w1, Ret res) => out = (w1, Ret res)
     | (w1, Raise e) =>
         out = if caught e
               then (logged (reported (headline e) e) w1, Ret None)
               else (w1, Raise e)
     end.
Proof.
  intros out k. subst out k.
  pose proof (send_handles env info device tok num_retries interval verbose w) as Hsend.
  repeat apply conj.
  - intros Hyes Hquiet e He. unfold accepts in Hyes.
    destruct (catalog !! device) as [d|] eqn:Hd; [|discriminate].
    apply Z.leb_le in Hyes.
    pose proof (send_body_submission_fails env info device (puts w) (sigint w) tok
                  num_retries interval verbose d e Hd Hyes Hquiet He w
                  (conj eq_refl eq_refl)) as Hbody.
    destruct (send_body _ _ _ _ _ _ _ _) as [w1 [res|e']]; [contradiction|].
    destruct Hbody as [-> Hputs]. exists w1. split; [lia | exact Hsend].
  - intros Hyes Hquiet Hint i N e Hq Hrun Hbudget He. unfold accepts in Hyes.
    destruct (catalog !! device) as [d|] eqn:Hd; [|discriminate].
    apply Z.leb_le in Hyes.
    destruct (send_body_poll_fails env info device tok num_retries interval verbose w d
                i N e Hd Hyes Hquiet Hint Hq Hrun Hbudget He) as (w1 & Hputs & Hbody).
    rewrite Hbody, (poll_error_caught _ _ He) in Hsend. by exists w1.
  - intros Hnone.
    pose proof (send_body_offline env info device tok num_retries interval verbose
                  (puts w) (sigint w) (proj2 (not_elem_of_dom _ _) Hnone) w
                  (conj eq_refl eq_refl)) as Hbody.
    destruct (send_body _ _ _ _ _ _ _ _) as [w1 [res|e]]; [contradiction|].
    subst e. by rewrite Hsend.
  - intros d Hd Hbig.
    pose proof (send_body_too_small env info device tok num_retries interval verbose
                  (puts w) (sigint w) d Hd Hbig w (conj eq_refl eq_refl)) as Hbody.
    destruct (send_body _ _ _ _ _ _ _ _) as [w1 [res|e]]; [contradiction|].
    subst e. by rewrite Hsend.
  - intros Hyes Hquiet Hint i Hq Hrun. unfold accepts in Hyes.
    destruct (catalog !! device) as [d|] eqn:Hd; [|discriminate].
    apply Z.leb_le in Hyes.
    pose proof (send_body_times_out env info device tok num_retries interval verbose w d
                  i Hd Hyes Hquiet Hint Hq Hrun) as Hbody.
    destruct (send_body _ _ _ _ _ _ _ _) as [w1 [res|e]]; [discriminate|].
    cbn [snd] in Hbody. injection Hbody as ->. by rewrite Hsend.
  - destruct (send_body _ _ _ _ _ _ _ _) as [w1 [res|e]]; exact Hsend.
Qed.

Lemma send_exception_policy_witness :
  (* a 500 response to the submission *)
  (exists w1,
     puts w1 = 1
     /\ send env_server_error bell_pair "aqt_simulator" None 100 1 false w_start
        = (logged (reported "- There was an error running your code:" (HTTPError 500)) w1,
           Ret None))
  (* the job is queued and found running, then a poll gets no response *)
  /\ (exists w1,
        puts w1 = 3
        /\ send (env_poll_answer Unreachable) bell_pair "aqt_simulator" None 100 1 false
             w_start
           = (logged (reported "- Looks like something is wrong with server:"
                        ConnectionError) w1,
              Ret None))
  (* a device that is not listed, a job that is too large, a job that
     never finishes *)
  /\ (send env_running bell_pair "aqt_ghost" None 100 1 false w_start).2
     = Raise (DeviceOfflineError "Device is offline.")
  /\ (send env_running too_large "aqt_simulator" None 100 1 false w_start).2
     = Raise (DeviceTooSmall "Device is too small.")
  /\ (send env_never_done bell_pair "aqt_simulator" None 100 1 false w_start).2
     = Raise (RequestTimeoutError (timeout_msg "job-1")).
Proof.
  repeat apply conj.
  - pose proof (send_exception_policy env_server_error bell_pair "aqt_simulator" None
                  100 1 false w_start) as H.
    cbv zeta in H. destruct H as (H & _).
    exact (H eq_refl eq_refl (HTTPError 500) eq_refl).
  - pose proof (send_exception_policy (env_poll_answer Unreachable) bell_pair
                  "aqt_simulator" None 100 1 false w_start) as H.
    cbv zeta in H. destruct H as (_ & H & _).
    refine (H eq_refl _ _ "job-1" 1 ConnectionError eq_refl _ _ eq_refl).
    + intros k. split; reflexivity.
    + lia.
    + intros j Hj. assert (j = 0) as -> by lia. reflexivity.
    + lia.
  - pose proof (send_exception_policy env_running bell_pair "aqt_ghost" None
                  100 1 false w_start) as H.
    cbv zeta in H. destruct H as (_ & _ & H & _).
    exact (H eq_refl).
  - pose proof (send_exception_policy env_running too_large "aqt_simulator" None
                  100 1 false w_start) as H.
    cbv zeta in H. destruct H as (_ & _ & _ & H & _).
    apply (H (mkDevice 11 "0.0.1" "sim/")); [reflexivity | cbn; lia].
  - pose proof (send_exception_policy env_never_done bell_pair "aqt_simulator" None
                  100 1 false w_start) as H.
    cbv zeta in H. destruct H as (_ & _ & _ & _ & H & _).
    refine (H eq_refl _ _ "job-1" eq_refl _).
    + intros k. split; reflexivity.
    + lia.
    + intros j _. reflexivity.
Defined.
